(** * AsthmaCare: the scoring engine, the mock responder, the air-quality
    cache, the auth façade and the record layer, embedded from
    [src/scripts/utils/api.js] and [src/scripts/auth/auth.js].

  Conventions of the embedding.
  - A JavaScript [Date] is its millisecond count, an integer ([Z]).
    Differences of two dates are exact; a quotient such as
    [(now - t) / (1000 * 60 * 60 * 24)] is kept as a rational ([Q]), which
    orders such quotients the way IEEE doubles do on millisecond counts.
  - A JavaScript string is a [string] (its UTF-8 bytes); [toLowerCase]
    folds the letters [A]..[Z] and leaves every other byte alone. The
    keywords of the responder are ASCII, and no keyword can be completed
    by the lower-case form of a character outside ASCII, so the responder
    answers as with the folding of the platform. The key of the
    air-quality cache does depend on how letters outside ASCII are folded:
    there the folding is a parameter.
  - Code that talks to the backend is written in state-passing style over
    an explicit world; what the backend answers is an input of the model.
  - The artificial latency of the mock responder and the interleaving of
    concurrent calls are outside the embedding. *)

From Stdlib Require Import ZArith QArith List String Ascii Bool Lia.
From Stdlib Require Import Permutation DecimalString.
Import ListNotations.

Local Open Scope string_scope.
Local Open Scope Z_scope.

(* ================================================================== *)
(** * Part I: definitions *)
(* ================================================================== *)

(** ** JavaScript strings *)

Module JsString.

(** [c.toLowerCase()] on one character. *)
Definition lower_char (c : ascii) : ascii :=
  let n := nat_of_ascii c in
  if ((65 <=? n) && (n <=? 90))%nat then ascii_of_nat (n + 32) else c.

(** [s.toLowerCase()]. *)
Fixpoint toLowerCase (s : string) : string :=
  match s with
  | EmptyString => EmptyString
  | String c rest => String (lower_char c) (toLowerCase rest)
  end.

(** [s.startsWith(k)]. *)
Fixpoint startsWith (s k : string) {struct k} : bool :=
  match k, s with
  | EmptyString, _ => true
  | String _ _, EmptyString => false
  | String a k', String b s' => Ascii.eqb a b && startsWith s' k'
  end.

(** [s.includes(k)]: [k] starts at some position of [s]. *)
Fixpoint includes (s k : string) : bool :=
  startsWith s k ||
  match s with
  | EmptyString => false
  | String _ rest => includes rest k
  end.

Definition hex_digit (n : nat) : ascii :=
  if (n <? 10)%nat then ascii_of_nat (48 + n) else ascii_of_nat (55 + n).

(** The characters [encodeURIComponent] leaves alone:
    [A-Z a-z 0-9 - _ . ! ~ * ' ( )]. *)
Definition uri_unreserved (c : ascii) : bool :=
  let n := nat_of_ascii c in
  (((65 <=? n) && (n <=? 90)) || ((97 <=? n) && (n <=? 122)) ||
   ((48 <=? n) && (n <=? 57)) ||
   existsb (Nat.eqb n) [45; 95; 46; 33; 126; 42; 39; 40; 41])%nat.

(** [encodeURIComponent(s)] on the UTF-8 bytes of [s]. *)
Fixpoint encodeURIComponent (s : string) : string :=
  match s with
  | EmptyString => EmptyString
  | String c rest =>
      if uri_unreserved c then String c (encodeURIComponent rest)
      else
        let n := nat_of_ascii c in
        String "%" (String (hex_digit (n / 16)) (String (hex_digit (n mod 16))
               (encodeURIComponent rest)))
  end.

End JsString.

(** ** Health scoring engine ([calculateAsthmaControlScore]) *)

Module Scoring.

(** A row of the [symptoms] table, as far as the score reads it. *)
Record SymptomEntry := {
  severity : Z;
  recorded_at : Z
}.

(** A row of the [medications] table. *)
Record MedicationEvent := {
  medication_name : string;
  dosage : string;
  taken_at : Z
}.

Inductive ControlLevel := WellControlled | PartlyControlled | PoorlyControlled.

(** The string the code stores in [level]. *)
Definition level_label (l : ControlLevel) : string :=
  match l with
  | WellControlled => "Well Controlled"
  | PartlyControlled => "Partly Controlled"
  | PoorlyControlled => "Poorly Controlled"
  end.

Record ControlResult := {
  score : Z;
  level : ControlLevel;
  recommendations : list string
}.

Definition msPerDay : Z := 1000 * 60 * 60 * 24.

(** [(new Date() - new Date(s.recorded_at)) / (1000 * 60 * 60 * 24)]. *)
Definition daysDiff (now : Z) (s : SymptomEntry) : Q :=
  inject_Z (now - recorded_at s) / inject_Z msPerDay.

(** The predicate of [symptoms.filter]: [daysDiff <= 7]. *)
Definition isRecent (now : Z) (s : SymptomEntry) : bool :=
  Qle_bool (daysDiff now s) (inject_Z 7).

(** The recommendations of the early return on an empty input. *)
Definition emptyRecommendations : list string :=
  [ "Continue current management plan";
    "Regular check-ups with healthcare provider" ].

Definition wellRecommendations : list string :=
  [ "Continue current management plan";
    "Monitor for any changes in symptoms";
    "Regular check-ups with healthcare provider" ].

Definition partlyRecommendations : list string :=
  [ "Review medication adherence";
    "Identify and avoid triggers";
    "Consider adjusting treatment plan with doctor" ].

Definition poorlyRecommendations : list string :=
  [ "Schedule urgent appointment with healthcare provider";
    "Review and update asthma action plan";
    "Ensure rescue medications are accessible";
    "Consider step-up therapy" ].

(** The [forEach] that lowers [totalScore] by [severity * 5] per entry. *)
Definition deduct (totalScore : Z) (recentSymptoms : list SymptomEntry) : Z :=
  fold_left (fun acc symptom => acc - severity symptom * 5) recentSymptoms totalScore.

Definition calculateAsthmaControlScore
    (now : Z) (symptoms : list SymptomEntry) (medications : list MedicationEvent)
    : ControlResult :=
  if (List.length symptoms =? 0)%nat then
    {| score := 100; level := WellControlled;
       recommendations := emptyRecommendations |}
  else
    let recentSymptoms := filter (isRecent now) symptoms in
    let totalScore := deduct 100 recentSymptoms in
    let '(lvl, recs) :=
      if totalScore >=? 80 then (WellControlled, wellRecommendations)
      else if totalScore >=? 60 then (PartlyControlled, partlyRecommendations)
      else (PoorlyControlled, poorlyRecommendations) in
    {| score := Z.max 0 totalScore; level := lvl; recommendations := recs |}.

(** The 7-day window in milliseconds: the entries recorded no more than
    7 days before [now] (an entry dated after [now] is inside it too). *)
Definition inWindow (now : Z) (s : SymptomEntry) : bool :=
  now - recorded_at s <=? 7 * msPerDay.

(** The points the spec sums: [severity * 5] over the entries of the
    7-day window. *)
Definition deduction (now : Z) (symptoms : list SymptomEntry) : Z :=
  fold_right (fun s acc => severity s * 5 + acc) 0 (filter (inWindow now) symptoms).

End Scoring.

(** ** Mock conversational responder ([simulateAIResponse], [sendChatMessage]) *)

Module Chat.
Import JsString.

Definition emergencyResponse : string :=
  "🚨 This sounds like a medical emergency. Please call 911 or your local emergency services immediately. Don't wait - severe breathing difficulties require immediate medical attention.".

Definition medicationResponse : string :=
  "For inhaler and medication questions, it's important to follow your doctor's prescribed instructions. If you're experiencing issues with your current medication or need adjustments, please contact your healthcare provider. Never stop or change medications without medical guidance.".

Definition triggerResponse : string :=
  "Common asthma triggers include dust mites, pet dander, pollen, smoke, cold air, and strong odors. Keeping a trigger diary can help identify your specific triggers. Consider using air purifiers, regular cleaning, and avoiding known irritants when possible.".

Definition exerciseResponse : string :=
  "Exercise-induced asthma is manageable! Warm up gradually, consider using your rescue inhaler before exercise if recommended by your doctor, and choose activities like swimming which are often better tolerated. Always have your rescue inhaler available during physical activity.".

Definition airQualityResponse : string :=
  "Poor air quality can definitely trigger asthma symptoms. Check daily air quality reports, limit outdoor activities on high pollution days, keep windows closed during poor air quality periods, and consider using air purifiers indoors. Our air quality monitor can help you stay informed!".

Definition stressResponse : string :=
  "Stress and anxiety can indeed trigger asthma symptoms. Practice relaxation techniques like deep breathing exercises, meditation, or yoga. Maintaining a regular sleep schedule and staying connected with support networks also helps. If stress is a major trigger, consider speaking with a counselor.".

Definition dietResponse : string :=
  "While food allergies can trigger asthma in some people, maintaining a healthy diet supports overall respiratory health. Foods rich in omega-3 fatty acids, antioxidants, and vitamin D may be beneficial. If you suspect food triggers, keep a food diary and discuss with your healthcare provider.".

Definition defaultResponse : string :=
  "Thank you for your question about asthma management. While I can provide general information, it's important to work closely with your healthcare provider for personalized advice. Is there a specific aspect of asthma management you'd like to know more about? I'm here to help with general guidance and support.".

(** The chain of [if]s of [simulateAIResponse], after the simulated delay. *)
Definition simulateAIResponse (message : string) : string :=
  let lowerMessage := toLowerCase message in
  if includes lowerMessage "emergency" || includes lowerMessage "can't breathe"
     || includes lowerMessage "severe" then emergencyResponse
  else if includes lowerMessage "inhaler" || includes lowerMessage "medication"
  then medicationResponse
  else if includes lowerMessage "trigger" || includes lowerMessage "allergen"
  then triggerResponse
  else if includes lowerMessage "exercise" || includes lowerMessage "activity"
  then exerciseResponse
  else if includes lowerMessage "air quality" || includes lowerMessage "pollution"
  then airQualityResponse
  else if includes lowerMessage "stress" || includes lowerMessage "anxiety"
  then stressResponse
  else if includes lowerMessage "diet" || includes lowerMessage "food"
  then dietResponse
  else defaultResponse.

(** The responder as the spec words it: an ordered list of keyword groups,
    the first group with a keyword inside the lower-cased message wins. *)
Definition keywordGroups : list (list string * string) :=
  [ (["emergency"; "can't breathe"; "severe"], emergencyResponse);
    (["inhaler"; "medication"], medicationResponse);
    (["trigger"; "allergen"], triggerResponse);
    (["exercise"; "activity"], exerciseResponse);
    (["air quality"; "pollution"], airQualityResponse);
    (["stress"; "anxiety"], stressResponse);
    (["diet"; "food"], dietResponse) ].

Definition groupMatches (lowerMessage : string) (g : list string * string) : bool :=
  existsb (includes lowerMessage) (fst g).

Definition firstMatch (message : string) : string :=
  match find (groupMatches (toLowerCase message)) keywordGroups with
  | Some g => snd g
  | None => defaultResponse
  end.

(** One element of the [context] array. *)
Record ChatTurn := { role : string; content : string }.

(** A row of [chat_history]. *)
Record ChatRow := {
  user_id : option string;
  user_message : string;
  ai_response : string;
  created_at : Z
}.

(** What the backend does with the insert of [saveChatMessage]. *)
Inductive InsertBehaviour := InsertStores | InsertRefuses | InsertThrows.

Record ChatWorld := {
  chat_history : list ChatRow;
  clock : Z;
  on_insert : InsertBehaviour
}.

Definition systemPrompt : ChatTurn :=
  {| role := "system";
     content := "You are a helpful AI assistant specializing in asthma and respiratory health. 
        Provide accurate, helpful information while always recommending users consult healthcare professionals for medical advice. 
        Keep responses conversational and supportive. If asked about emergencies, always advise calling emergency services." |}.

(** [saveChatMessage]: [supabase.auth.getUser()] is not awaited, so
    [user?.data?.user?.id] is undefined and the row carries [user_id: null];
    a refused insert is ignored and a thrown one is caught. *)
Definition saveChatMessage (userMessage aiResponse : string) (w : ChatWorld) : ChatWorld :=
  let row := {| user_id := None; user_message := userMessage;
                ai_response := aiResponse; created_at := clock w |} in
  match on_insert w with
  | InsertStores =>
      {| chat_history := (chat_history w ++ [row])%list; clock := clock w;
         on_insert := on_insert w |}
  | InsertRefuses => w
  | InsertThrows => w
  end.

(** [sendChatMessage]: [inr] is the resolved response, [inl] the message of
    the error the [catch] rethrows. *)
Definition sendChatMessage (message : string) (context : list ChatTurn) (w : ChatWorld)
    : ChatWorld * (string + string) :=
  let messages :=
    (systemPrompt :: context ++ [ {| role := "user"; content := message |} ])%list in
  let response := simulateAIResponse message in
  let w' := saveChatMessage message response w in
  (w', inr response).

End Chat.

(** ** Freshness cache ([checkAirQuality]) *)

Module AirQuality.
Import JsString.

(** The JSON document of the weather API, opaque here. *)
Definition Payload := string.

(** A row of [air_quality_cache]. *)
Record CacheRow := {
  location : string;
  data : Payload;
  created_at : Z
}.

Inductive Error :=
| NetworkError (reason : string)   (* [fetch] rejects *)
| ApiError (status : Z)            (* [Air quality API error: status] *)
| ParseError.                      (* [response.json()] rejects *)

(** What [fetch(url)] does: reject, or resolve to a response with its
    [ok] flag, its [status] and the document [json()] parses, if any. *)
Inductive FetchResult :=
| FetchRejects (reason : string)
| FetchResponds (ok : bool) (status : Z) (body : option Payload).

(** The world of one call: the table, the clock at the freshness check,
    the time the fetch takes, the weather API by URL, the error code the
    backend answers to the n-th cache lookup (if it fails) and whether it
    accepts the insert. *)
Record World := {
  table : list CacheRow;
  now : Z;
  elapsed : Z;
  remote : string -> FetchResult;
  select_fault : nat -> option string;
  insert_ok : bool
}.

(** What a call leaves behind: its result ([inl] is the rejection), the
    table and the URLs requested from the weather API. *)
Record Run := {
  result : Error + Payload;
  table_after : list CacheRow;
  fetched : list string
}.

Definition AIR_QUALITY_API_KEY : string := "your-air-quality-api-key".
Definition AIR_QUALITY_BASE_URL : string := "http://api.weatherapi.com/v1".

(** [.order('created_at', { ascending: false }).limit(1)]: the row with the
    greatest [created_at], the earliest such row among equals. *)
Definition newer (best : option CacheRow) (r : CacheRow) : option CacheRow :=
  match best with
  | None => Some r
  | Some b => if created_at b <? created_at r then Some r else Some b
  end.

Definition mostRecent (rows : list CacheRow) : option CacheRow :=
  fold_left newer rows None.

(** The query of [getCachedAirQuality] as the backend answers it:
    [{ data, error }], with error [PGRST116] when [.single()] finds no row. *)
Definition selectSingle (w : World) (n : nat) (key : string)
    : option CacheRow * option string :=
  match select_fault w n with
  | Some code => (None, Some code)
  | None =>
      match mostRecent (filter (fun r => String.eqb (location r) key) (table w)) with
      | Some r => (Some r, None)
      | None => (None, Some "PGRST116")
      end
  end.

Section CacheKey.

(** [String.prototype.toLowerCase] as the platform computes it, on all of
    Unicode. The cache only uses it to build its key, so it is a parameter
    here: everything below holds for whatever function it is. *)
Variable lowerCase : string -> string.

(** [getCachedAirQuality]: an error other than [PGRST116] is thrown and
    caught, and the function returns [null]. *)
Definition getCachedAirQuality (w : World) (n : nat) (loc : string) : option CacheRow :=
  let '(data, error) := selectSingle w n (lowerCase loc) in
  match error with
  | Some code => if negb (String.eqb code "PGRST116") then None else data
  | None => data
  end.

(** [cacheAirQuality]: the insert; its failure is swallowed. *)
Definition cacheAirQuality (w : World) (loc : string) (d : Payload) : list CacheRow :=
  if insert_ok w then
    (table w ++ [ {| location := lowerCase loc; data := d;
                     created_at := now w + elapsed w |} ])%list
  else table w.

Definition Qlt_bool (x y : Q) : bool :=
  (Qnum x * QDen y <? Qnum y * QDen x)%Z.

(** [isDataFresh(timestamp, minutes)]: [(now - dataTime) / (1000 * 60) < minutes]. *)
Definition isDataFresh (now timestamp minutes : Z) : bool :=
  let diffMinutes := (inject_Z (now - timestamp) / inject_Z (1000 * 60))%Q in
  Qlt_bool diffMinutes (inject_Z minutes).

Definition requestUrl (loc : string) : string :=
  AIR_QUALITY_BASE_URL ++ "/current.json?key=" ++ AIR_QUALITY_API_KEY
    ++ "&q=" ++ encodeURIComponent loc ++ "&aqi=yes".

(** The fetch path inside the [try]: [inl] is what it throws. *)
Definition fetchFresh (w : World) (loc : string) : Error + Payload :=
  match remote w (requestUrl loc) with
  | FetchRejects reason => inl (NetworkError reason)
  | FetchResponds false status _ => inl (ApiError status)
  | FetchResponds true _ None => inl ParseError
  | FetchResponds true _ (Some d) => inr d
  end.

(** From [// Fetch fresh data from API] to the end of the [catch]. *)
Definition refetch (loc : string) (w : World) : Run :=
  match fetchFresh w loc with
  | inr d =>
      {| result := inr d; table_after := cacheAirQuality w loc d;
         fetched := [requestUrl loc] |}
  | inl error =>
      match getCachedAirQuality w 1 loc with
      | Some fallbackData =>
          {| result := inr (data fallbackData); table_after := table w;
             fetched := [requestUrl loc] |}
      | None =>
          {| result := inl error; table_after := table w;
             fetched := [requestUrl loc] |}
      end
  end.

Definition checkAirQuality (loc : string) (w : World) : Run :=
  match getCachedAirQuality w 0 loc with
  | Some cachedData =>
      if isDataFresh (now w) (created_at cachedData) 30 then
        {| result := inr (data cachedData); table_after := table w; fetched := [] |}
      else refetch loc w
  | None => refetch loc w
  end.

(** The freshness window of [checkAirQuality], in milliseconds. *)
Definition windowMs : Z := 30 * 60 * 1000.

(** The rows of a key, as the query of [getCachedAirQuality] filters them. *)
Definition rowsFor (w : World) (loc : string) : list CacheRow :=
  filter (fun r => String.eqb (location r) (lowerCase loc)) (table w).

End CacheKey.

End AirQuality.

(** ** Auth session façade ([AuthManager]) *)

Module Auth.

Record User := { id : string; email : string }.

(** A session of the identity provider; [None] is [null]. *)
Record Session := { user : User; access_token : string }.

(** [session?.user || null]. *)
Definition sessionUser (session : option Session) : option User :=
  option_map user session.

(** An observer: the function object (told apart by [cb_id]) and whether
    it throws when called. An observer does not call back into the
    manager. *)
Record Callback := { cb_id : nat; cb_throws : bool }.

Definition same_callback (a b : Callback) : bool := (cb_id a =? cb_id b)%nat.

(** What the outside sees of the manager. *)
Inductive Effect :=
| Invoked (cb : nat) (current : option User) (event : string)
| NavbarUpdated (current : option User).

(** The fields of [AuthManager], and [listening]: whether [init] has
    handed its listener to [supabase.auth.onAuthStateChange]. *)
Record AuthManager := {
  currentUser : option User;
  authCallbacks : list Callback;
  initialized : bool;
  listening : bool
}.

(** The fields the constructor sets, before [init] runs. *)
Definition constructed : AuthManager :=
  {| currentUser := None; authCallbacks := []; initialized := false;
     listening := false |}.

(** What [supabase.auth.getSession()] does. *)
Inductive GetSession :=
| GetSessionRejects
| GetSessionResolves (session : option Session) (error : option string).

(** [init], once [getSession] has settled. *)
Definition init (r : GetSession) (m : AuthManager) : AuthManager :=
  match r with
  | GetSessionRejects => m
  | GetSessionResolves session error =>
      {| currentUser :=
           match error with
           | Some _ => currentUser m
           | None => sessionUser session
           end;
         authCallbacks := authCallbacks m;
         initialized := true;
         listening := true |}
  end.

(** [this.authCallbacks.forEach(...)]: every call sits in its own
    [try]/[catch], so a throwing observer stops nothing. *)
Definition notifyAll (current : option User) (event : string) (cbs : list Callback)
    : list Effect :=
  map (fun callback => Invoked (cb_id callback) current event) cbs.

(** The listener [init] registers; [navbar] tells whether
    [window.updateNavbarAuth] is defined. *)
Definition authListener (navbar : bool) (event : string) (session : option Session)
    (m : AuthManager) : AuthManager * list Effect :=
  let m' := {| currentUser := sessionUser session;
               authCallbacks := authCallbacks m;
               initialized := initialized m;
               listening := listening m |} in
  (m', (notifyAll (currentUser m') event (authCallbacks m')
        ++ (if navbar then [NavbarUpdated (currentUser m')] else []))%list).

(** An auth-state transition of the provider: it reaches the manager
    only through the registered listener. *)
Definition transition (navbar : bool) (event : string) (session : option Session)
    (m : AuthManager) : AuthManager * list Effect :=
  if listening m then authListener navbar event session m else (m, []).

(** [onAuthStateChange(callback)]; the boolean tells whether the call
    ends with the observer's exception. *)
Definition onAuthStateChange (callback : Callback) (m : AuthManager)
    : AuthManager * list Effect * bool :=
  let m' := {| currentUser := currentUser m;
               authCallbacks := (authCallbacks m ++ [callback])%list;
               initialized := initialized m;
               listening := listening m |} in
  if initialized m' then
    (m', [Invoked (cb_id callback) (currentUser m') "INITIAL_SESSION"],
     cb_throws callback)
  else (m', [], false).

(** [indexOf] then [splice(index, 1)]: the first occurrence goes. *)
Fixpoint removeFirst (callback : Callback) (cbs : list Callback) : list Callback :=
  match cbs with
  | [] => []
  | c :: rest => if same_callback c callback then rest else c :: removeFirst callback rest
  end.

Definition removeAuthStateCallback (callback : Callback) (m : AuthManager) : AuthManager :=
  {| currentUser := currentUser m;
     authCallbacks := removeFirst callback (authCallbacks m);
     initialized := initialized m;
     listening := listening m |}.

(** The states the manager goes through. *)
Inductive reachable : AuthManager -> Prop :=
| reach_constructed : reachable constructed
| reach_init r m : reachable m -> initialized m = false -> reachable (init r m)
| reach_subscribe callback m :
    reachable m -> reachable (fst (fst (onAuthStateChange callback m)))
| reach_unsubscribe callback m :
    reachable m -> reachable (removeAuthStateCallback callback m)
| reach_transition navbar event session m :
    reachable m -> reachable (fst (transition navbar event session m)).

(** How often the observer [callback] is called in a list of effects,
    with which user and event. *)
Definition invocations (callback : Callback) (effects : list Effect)
    : list (option User * string) :=
  flat_map (fun e =>
    match e with
    | Invoked n current event => if (n =? cb_id callback)%nat then [(current, event)] else []
    | NavbarUpdated _ => []
    end) effects.

(** How many times the observer [callback] sits in [authCallbacks]. *)
Definition registrations (callback : Callback) (cbs : list Callback) : nat :=
  List.length (filter (fun c => (cb_id c =? cb_id callback)%nat) cbs).

End Auth.

(** ** Owner-scoped record layer (the exported operations of [api.js]
     that resolve the current user) *)

Module Records.
Import Auth.

(** The values the layer hands around. *)
#[warnings="-register-all"] Inductive Json :=
| JNull
| JStr (s : string)
| JArr (items : list Json)
| JObj (fields : list (string * Json)).

Definition truthy (j : Json) : bool :=
  match j with
  | JNull => false
  | JStr s => negb (String.eqb s "")
  | _ => true
  end.

(** [data || []]. *)
Definition orEmpty (j : Json) : Json := if truthy j then j else JArr [].

Inductive Err :=
| JsError (message : string)      (* [new Error(message)] *)
| BackendError (code : string).   (* an error object of the backend *)

Definition notAuthenticated : Err := JsError "User not authenticated".

Inductive Store :=
| USER_PROFILES | HEALTH_REPORTS | APPOINTMENTS | CHAT_HISTORY
| SYMPTOMS | MEDICATIONS | EMERGENCY_CONTACTS
| HEALTH_REPORTS_BUCKET.

Inductive Verb := Select | Insert | Update | Delete | Upload | Remove.

(** One request to the backend: what is asked, of which table or bucket,
    and the [user.id] of the user the operation resolved, which the code
    puts in the filter, the inserted row or the file name. The columns
    and paths of the request itself are not part of the record. *)
Record Access := { verb : Verb; store : Store; owner : string }.

(** The [{ data, error }] the backend answers. *)
Record Answer := { data : Json; error : option Err }.

Definition Backend := Access -> Answer.

(** A settled promise. *)
Inductive Settled (A : Type) :=
| Fulfilled (v : A)
| Rejected (e : Err).
Arguments Fulfilled {A} v.
Arguments Rejected {A} e.

(** Computations of the layer: they read the backend, log their
    requests and may throw. *)
Definition M (A : Type) : Type := Backend -> list Access -> Settled A * list Access.

Definition ret {A} (v : A) : M A := fun _ log => (Fulfilled v, log).
Definition throw {A} (e : Err) : M A := fun _ log => (Rejected e, log).
Definition bind {A B} (c : M A) (k : A -> M B) : M B :=
  fun be log =>
    match c be log with
    | (Fulfilled v, log') => k v be log'
    | (Rejected e, log') => (Rejected e, log')
    end.
Definition tryCatch {A} (body : M A) (handler : Err -> M A) : M A :=
  fun be log =>
    match body be log with
    | (Fulfilled v, log') => (Fulfilled v, log')
    | (Rejected e, log') => handler e be log'
    end.

Notation "x <- c ;; k" := (bind c (fun x => k))
  (at level 61, c at next level, right associativity).

Definition run {A} (c : M A) (be : Backend) : Settled A * list Access := c be [].

(** [if (!user) throw new Error('User not authenticated')]. *)
Definition requireUser (current : option User) : M User :=
  match current with
  | Some u => ret u
  | None => throw notAuthenticated
  end.

Definition request (v : Verb) (s : Store) (u : User) : M Answer :=
  fun be log =>
    let a := {| verb := v; store := s; owner := id u |} in
    (Fulfilled (be a), (log ++ [a])%list).

(** [if (error) throw error], then the data. *)
Definition orThrow (ans : Answer) : M Json :=
  match error ans with
  | Some e => throw e
  | None => ret (data ans)
  end.

(** The three shapes the operations return. *)
Inductive Result :=
| DataError (data : Json) (error : option Err)   (* [{ data, error }] *)
| ErrorOnly (error : option Err)                (* [{ error }] *)
| Plain (value : Json).                         (* an array *)

(** Operations that return [{ data, error: null }] or [{ data: null, error }]. *)
Definition writeOne (v : Verb) (s : Store) (current : option User) : M Result :=
  tryCatch
    (u <- requireUser current ;;
     ans <- request v s u ;;
     d <- orThrow ans ;;
     ret (DataError d None))
    (fun e => ret (DataError JNull (Some e))).

(** Operations that return [data || []] and rethrow what they catch. *)
Definition readMany (s : Store) (current : option User) : M Result :=
  tryCatch
    (u <- requireUser current ;;
     ans <- request Select s u ;;
     d <- orThrow ans ;;
     ret (Plain (orEmpty d)))
    (fun e => throw e).

Definition getChatHistory (current : option User) : M Result :=
  tryCatch
    (match current with
     | None => ret (Plain (JArr []))
     | Some u =>
         ans <- request Select CHAT_HISTORY u ;;
         d <- orThrow ans ;;
         ret (Plain (orEmpty d))
     end)
    (fun _ => ret (Plain (JArr []))).

Definition uploadHealthReport (current : option User) : M Result :=
  tryCatch
    (u <- requireUser current ;;
     up <- request Upload HEALTH_REPORTS_BUCKET u ;;
     _ <- orThrow up ;;
     ins <- request Insert HEALTH_REPORTS u ;;
     match error ins with
     | Some dbError =>
         _ <- request Remove HEALTH_REPORTS_BUCKET u ;;
         throw dbError
     | None => ret (DataError (data ins) None)
     end)
    (fun e => ret (DataError JNull (Some e))).

Definition getHealthReports := readMany HEALTH_REPORTS.

Definition deleteHealthReport (current : option User) : M Result :=
  tryCatch
    (u <- requireUser current ;;
     report <- request Select HEALTH_REPORTS u ;;
     _ <- orThrow report ;;
     _ <- request Remove HEALTH_REPORTS_BUCKET u ;;
     del <- request Delete HEALTH_REPORTS u ;;
     _ <- orThrow del ;;
     ret (ErrorOnly None))
    (fun e => ret (ErrorOnly (Some e))).

Definition bookAppointment := writeOne Insert APPOINTMENTS.
Definition getAppointments := readMany APPOINTMENTS.
Definition cancelAppointment := writeOne Update APPOINTMENTS.
Definition rescheduleAppointment := writeOne Update APPOINTMENTS.
Definition logSymptom := writeOne Insert SYMPTOMS.
Definition getSymptomHistory := readMany SYMPTOMS.
Definition logMedicationUsage := writeOne Insert MEDICATIONS.
Definition getMedicationHistory := readMany MEDICATIONS.
Definition addEmergencyContact := writeOne Insert EMERGENCY_CONTACTS.
Definition getEmergencyContacts := readMany EMERGENCY_CONTACTS.

(** [exportUserData]; the seven queries of [Promise.all], in order. *)
Definition exportUserData (exportDate : string) (current : option User) : M Result :=
  tryCatch
    (u <- requireUser current ;;
     profile <- request Select USER_PROFILES u ;;
     healthReports <- request Select HEALTH_REPORTS u ;;
     appointments <- request Select APPOINTMENTS u ;;
     symptoms <- request Select SYMPTOMS u ;;
     medications <- request Select MEDICATIONS u ;;
     emergencyContacts <- request Select EMERGENCY_CONTACTS u ;;
     chatHistory <- request Select CHAT_HISTORY u ;;
     ret (DataError
            (JObj [ ("exportDate", JStr exportDate);
                    ("userId", JStr (id u));
                    ("profile", data profile);
                    ("healthReports", orEmpty (data healthReports));
                    ("appointments", orEmpty (data appointments));
                    ("symptoms", orEmpty (data symptoms));
                    ("medications", orEmpty (data medications));
                    ("emergencyContacts", orEmpty (data emergencyContacts));
                    ("chatHistory", orEmpty (data chatHistory)) ])
            None))
    (fun e => ret (DataError JNull (Some e))).

(** The operations of the layer. *)
Inductive Operation :=
| OpGetChatHistory
| OpUploadHealthReport | OpGetHealthReports | OpDeleteHealthReport
| OpBookAppointment | OpGetAppointments | OpCancelAppointment
| OpRescheduleAppointment
| OpLogSymptom | OpGetSymptomHistory
| OpLogMedicationUsage | OpGetMedicationHistory
| OpAddEmergencyContact | OpGetEmergencyContacts
| OpExportUserData (exportDate : string).

Definition perform (op : Operation) (current : option User) : M Result :=
  match op with
  | OpGetChatHistory => getChatHistory current
  | OpUploadHealthReport => uploadHealthReport current
  | OpGetHealthReports => getHealthReports current
  | OpDeleteHealthReport => deleteHealthReport current
  | OpBookAppointment => bookAppointment current
  | OpGetAppointments => getAppointments current
  | OpCancelAppointment => cancelAppointment current
  | OpRescheduleAppointment => rescheduleAppointment current
  | OpLogSymptom => logSymptom current
  | OpGetSymptomHistory => getSymptomHistory current
  | OpLogMedicationUsage => logMedicationUsage current
  | OpGetMedicationHistory => getMedicationHistory current
  | OpAddEmergencyContact => addEmergencyContact current
  | OpGetEmergencyContacts => getEmergencyContacts current
  | OpExportUserData exportDate => exportUserData exportDate current
  end.

Definition isNotAuthenticated (e : Err) : bool :=
  match e with
  | JsError message => String.eqb message "User not authenticated"
  | BackendError _ => false
  end.

(** The call fails with the Unauthenticated condition: it rejects with
    the error, or resolves to a result that carries it. *)
Definition unauthenticated (r : Settled Result) : bool :=
  match r with
  | Rejected e => isNotAuthenticated e
  | Fulfilled (DataError JNull (Some e)) => isNotAuthenticated e
  | Fulfilled (ErrorOnly (Some e)) => isNotAuthenticated e
  | Fulfilled _ => false
  end.

Definition isGetChatHistory (op : Operation) : bool :=
  match op with
  | OpGetChatHistory => true
  | _ => false
  end.

End Records.

(** ** Reading the chat history back *)

Module ChatStore.
Import Chat.

(** [.eq('user_id', user.id)] on [chat_history]: the rows of one user. *)
Definition historyOf (uid : string) (rows : list ChatRow) : list ChatRow :=
  filter (fun r => match user_id r with
                   | Some owner => String.eqb owner uid
                   | None => false
                   end) rows.

End ChatStore.

(** ** The profile operations and the auth wrappers of [AuthManager] *)

Module AuthProfile.
Import Auth Records.

(** What a call of [supabase.auth] answers: [{ data, error }], and the
    [data.user] that [signUp] reads. *)
Record AuthAnswer := {
  auth_data : Json;
  auth_user : option User;
  auth_error : option Err
}.

(** [error.code]. *)
Definition errCode (e : Err) : option string :=
  match e with
  | JsError _ => None
  | BackendError code => Some code
  end.

(** [error.code !== code]. *)
Definition codeIsNot (e : Err) (code : string) : bool :=
  match errCode e with
  | Some c => negb (String.eqb c code)
  | None => true
  end.

(** [createUserProfile]: a duplicate key (23505) is ignored, every other
    error is thrown, caught and logged. *)
Definition createUserProfile (u : User) : M unit :=
  tryCatch
    (ans <- request Insert USER_PROFILES u ;;
     match error ans with
     | Some e => if codeIsNot e "23505" then throw e else ret tt
     | None => ret tt
     end)
    (fun _ => ret tt).

(** [signUp], given what [supabase.auth.signUp] answers. *)
Definition signUp (answer : AuthAnswer) : M Result :=
  tryCatch
    (match auth_error answer with
     | Some e => throw e
     | None =>
         _ <- match auth_user answer with
              | Some u => createUserProfile u
              | None => ret tt
              end ;;
         ret (DataError (auth_data answer) None)
     end)
    (fun e => ret (DataError JNull (Some e))).

(** [signIn], [signInWithGoogle], [signInWithGitHub], [resetPassword],
    [updatePassword], [updateProfile] and [refreshSession]: one call of
    [supabase.auth], its answer reshaped. *)
Definition authCall (answer : AuthAnswer) : M Result :=
  tryCatch
    (match auth_error answer with
     | Some e => throw e
     | None => ret (DataError (auth_data answer) None)
     end)
    (fun e => ret (DataError JNull (Some e))).

(** [signOut]: the same with the [{ error }] shape. *)
Definition signOut (answer : AuthAnswer) : M Result :=
  tryCatch
    (match auth_error answer with
     | Some e => throw e
     | None => ret (ErrorOnly None)
     end)
    (fun e => ret (ErrorOnly (Some e))).

(** [getUserProfile]: [null] without a user, on a missing row and on any
    other failure. *)
Definition getUserProfile (m : AuthManager) : M Json :=
  match currentUser m with
  | None => ret JNull
  | Some u =>
      tryCatch
        (ans <- request Select USER_PROFILES u ;;
         match error ans with
         | Some e => if codeIsNot e "PGRST116" then throw e else ret (data ans)
         | None => ret (data ans)
         end)
        (fun _ => ret JNull)
  end.

(** [updateUserProfile]: the guard sits before the [try]. *)
Definition updateUserProfile (m : AuthManager) : M Result :=
  match currentUser m with
  | None => throw notAuthenticated
  | Some u =>
      tryCatch
        (ans <- request Update USER_PROFILES u ;;
         d <- orThrow ans ;;
         ret (DataError d None))
        (fun e => ret (DataError JNull (Some e)))
  end.

(** [getToken]: [session?.access_token || null], and [null] when
    [getSession] rejects. *)
Definition getToken (r : GetSession) : option string :=
  match r with
  | GetSessionRejects => None
  | GetSessionResolves None _ => None
  | GetSessionResolves (Some session) _ =>
      if String.eqb (access_token session) "" then None
      else Some (access_token session)
  end.

End AuthProfile.

(** ** The guards of [AuthManager] *)

Module AuthGuards.
Import JsString Auth.

(** [getCurrentUser]. *)
Definition getCurrentUser (m : AuthManager) : option User := currentUser m.

(** [isAuthenticated]: [!!this.currentUser]. *)
Definition isAuthenticated (m : AuthManager) : bool :=
  match currentUser m with
  | Some _ => true
  | None => false
  end.

(** [redirectUrl || window.location.href]. *)
Definition returnUrl (redirectUrl : option string) (href : string) : string :=
  match redirectUrl with
  | Some u => if String.eqb u "" then href else u
  | None => href
  end.

(** [requireAuth(redirectUrl)] on a page at [href]: what it returns, and
    the URL it assigns to [window.location.href], if it assigns one. *)
Definition requireAuth (redirectUrl : option string) (href : string) (m : AuthManager)
    : bool * option string :=
  if negb (isAuthenticated m) then
    let loginUrl := "login.html?redirect=" ++ encodeURIComponent (returnUrl redirectUrl href) in
    (false, Some loginUrl)
  else (true, None).

(** The characters that would end or split the [redirect] parameter. *)
Definition splitsQuery (c : ascii) : bool :=
  existsb (Ascii.eqb c) ["&"; "="; "#"; "?"; "+"; " "; "/"]%char.

Fixpoint anyChar (p : ascii -> bool) (s : string) : bool :=
  match s with
  | EmptyString => false
  | String c rest => p c || anyChar p rest
  end.

End AuthGuards.

(** ** Utility functions of [api.js] *)

Module Utilities.

(** The [document_type] enum of the schema. *)
Inductive DocumentType :=
| Prescription | TestResult | MedicalReport | Insurance | XRay | OtherDocument.

Definition sameType (a b : DocumentType) : bool :=
  match a, b with
  | Prescription, Prescription | TestResult, TestResult
  | MedicalReport, MedicalReport | Insurance, Insurance
  | XRay, XRay | OtherDocument, OtherDocument => true
  | _, _ => false
  end.

(** A row of [health_reports], as far as the summary reads it; a missing
    [file_size] is [None]. *)
Record HealthReport := {
  filename : string;
  document_type : DocumentType;
  file_size : option Z
}.

(** [x || 0] on a number that may be missing. *)
Definition orZero (x : option Z) : Z :=
  match x with
  | Some n => n
  | None => 0
  end.

(** The object [byType]: its properties in the order they were created. *)
Definition TypeCounts := list (DocumentType * Z).

(** [byType[t]]. *)
Fixpoint getCount (t : DocumentType) (byType : TypeCounts) : option Z :=
  match byType with
  | [] => None
  | (k, n) :: rest => if sameType k t then Some n else getCount t rest
  end.

(** [byType[t] = v]. *)
Fixpoint setCount (t : DocumentType) (v : Z) (byType : TypeCounts) : TypeCounts :=
  match byType with
  | [] => [(t, v)]
  | (k, n) :: rest => if sameType k t then (k, v) :: rest else (k, n) :: setCount t v rest
  end.

Record ReportSummary := {
  totalReports : Z;
  byType : TypeCounts;
  recentUploads : list HealthReport;
  storageUsed : Z
}.

(** The body of the [forEach]. *)
Definition countReport (summary : ReportSummary) (report : HealthReport) : ReportSummary :=
  {| totalReports := totalReports summary;
     byType := setCount (document_type report)
                 (orZero (getCount (document_type report) (byType summary)) + 1)
                 (byType summary);
     recentUploads := recentUploads summary;
     storageUsed := storageUsed summary + orZero (file_size report) |}.

Definition generateHealthReportSummary (reports : list HealthReport) : ReportSummary :=
  let summary := {| totalReports := Z.of_nat (List.length reports);
                    byType := [];
                    recentUploads := firstn 5 reports;
                    storageUsed := 0 |} in
  fold_left countReport reports summary.

(** The number of reports of one type. *)
Definition reportsOfType (t : DocumentType) (reports : list HealthReport) : Z :=
  Z.of_nat (List.length (filter (fun r => sameType (document_type r) t) reports)).

Definition sumCounts (byType : TypeCounts) : Z :=
  fold_right (fun kn acc => snd kn + acc) 0 byType.

(** What [getAirQualityColor] returns. *)
Record AqiBadge := {
  color : string;
  status : string;
  description : string
}.

Definition getAirQualityColor (aqi : Q) : AqiBadge :=
  if Qle_bool aqi (inject_Z 1) then
    {| color := "green"; status := "Good";
       description := "Air quality is satisfactory" |}
  else if Qle_bool aqi (inject_Z 2) then
    {| color := "yellow"; status := "Moderate";
       description := "Acceptable for most people" |}
  else if Qle_bool aqi (inject_Z 3) then
    {| color := "orange"; status := "Unhealthy for Sensitive Groups";
       description := "May cause issues for sensitive individuals" |}
  else if Qle_bool aqi (inject_Z 4) then
    {| color := "red"; status := "Unhealthy";
       description := "Health warnings for everyone" |}
  else
    {| color := "purple"; status := "Very Unhealthy";
       description := "Emergency conditions" |}.

(** How alarming a colour is. *)
Definition alarm (c : string) : nat :=
  if String.eqb c "green" then 0
  else if String.eqb c "yellow" then 1
  else if String.eqb c "orange" then 2
  else if String.eqb c "red" then 3
  else 4.

(** An appointment as the reminder reads it: the instant
    [new Date(date + 'T' + time)] denotes ([None] for an invalid date),
    the [appointment_time] text and the [doctor_name], if any. *)
Record Appointment := {
  starts_at : option Z;
  appointment_time : string;
  doctor_name : option string
}.

Inductive ReminderType := NoReminder | Urgent | Upcoming.

(** The string the code stores in [type]. *)
Definition reminder_label (t : ReminderType) : string :=
  match t with
  | NoReminder => "none"
  | Urgent => "urgent"
  | Upcoming => "upcoming"
  end.

Record Reminder := {
  type : ReminderType;
  message : string
}.

Definition msPerHour : Z := 1000 * 60 * 60.

(** A whole number as a template literal prints it. *)
Definition showNumber (n : Z) : string := NilZero.string_of_int (Z.to_int n).

(** [appointment.doctor_name || 'your doctor']. *)
Definition doctorOf (appointment : Appointment) : string :=
  match doctor_name appointment with
  | Some name => if String.eqb name "" then "your doctor" else name
  | None => "your doctor"
  end.

(** [Math.ceil(hoursDiff / 24)]. *)
Definition daysAhead (hoursDiff : Z) : Z := - ((- hoursDiff) / 24).

Definition generateAppointmentReminder (now : Z) (appointment : Appointment) : Reminder :=
  match starts_at appointment with
  | None => {| type := NoReminder; message := "" |}
  | Some appointmentDate =>
      let timeDiff := appointmentDate - now in
      let hoursDiff := timeDiff / msPerHour in
      if (hoursDiff <=? 24) && (hoursDiff >? 0) then
        {| type := Urgent;
           message := "Appointment reminder: You have an appointment with "
                        ++ doctorOf appointment ++ " tomorrow at "
                        ++ appointment_time appointment |}
      else if (hoursDiff <=? 72) && (hoursDiff >? 24) then
        {| type := Upcoming;
           message := "Upcoming appointment: You have an appointment with "
                        ++ doctorOf appointment ++ " in "
                        ++ showNumber (daysAhead hoursDiff) ++ " days" |}
      else {| type := NoReminder; message := "" |}
  end.

End Utilities.

(** ** The validators of [api.js] ([isValidPhoneNumber], [isValidEmail])

    A regular expression without the [u] flag reads a string unit by
    unit, so the text is the list of its UTF-16 code units here. The two
    expressions are anchored at both ends and use classes, sequence and
    repetition only: [test] is membership in their language, decided by
    derivatives. *)

Module Validators.

Definition Text := list N.

(** The code units of an ASCII literal. *)
Definition unitsOf (s : string) : Text :=
  map N_of_ascii (list_ascii_of_string s).

Inductive Regex :=
| Fail
| Eps
| Class (p : N -> bool)
| Seq (r1 r2 : Regex)
| Alt (r1 r2 : Regex)
| Star (r : Regex).

Fixpoint nullable (r : Regex) : bool :=
  match r with
  | Fail => false
  | Eps => true
  | Class _ => false
  | Seq r1 r2 => nullable r1 && nullable r2
  | Alt r1 r2 => nullable r1 || nullable r2
  | Star _ => true
  end.

Fixpoint deriv (c : N) (r : Regex) : Regex :=
  match r with
  | Fail => Fail
  | Eps => Fail
  | Class p => if p c then Eps else Fail
  | Seq r1 r2 =>
      if nullable r1 then Alt (Seq (deriv c r1) r2) (deriv c r2)
      else Seq (deriv c r1) r2
  | Alt r1 r2 => Alt (deriv c r1) (deriv c r2)
  | Star r1 => Seq (deriv c r1) (Star r1)
  end.

(** [/^r$/.test(text)]. *)
Definition test (r : Regex) (text : Text) : bool :=
  nullable (fold_left (fun r c => deriv c r) text r).

(** [r?], [r+] and [r{n,}]. *)
Definition Opt (r : Regex) : Regex := Alt Eps r.
Definition Plus (r : Regex) : Regex := Seq r (Star r).
Fixpoint AtLeast (n : nat) (r : Regex) : Regex :=
  match n with
  | O => Star r
  | S n' => Seq r (AtLeast n' r)
  end.

(** [\d]. *)
Definition isDigit (c : N) : bool := ((48 <=? c) && (c <=? 57))%N.

(** [\s]: the white space and line terminators of ECMAScript. *)
Definition isSpace (c : N) : bool :=
  (((9 <=? c) && (c <=? 13)) || (c =? 32) || (c =? 160) || (c =? 5760)
   || ((8192 <=? c) && (c <=? 8202)) || (c =? 8232) || (c =? 8233)
   || (c =? 8239) || (c =? 8287) || (c =? 12288) || (c =? 65279))%N.

Definition isUnit (a : ascii) (c : N) : bool := (c =? N_of_ascii a)%N.

(** [[\d\s\-\(\)]]. *)
Definition phoneChar (c : N) : bool :=
  isDigit c || isSpace c || isUnit "-" c || isUnit "(" c || isUnit ")" c.

(** [[^\s@]]. *)
Definition emailChar (c : N) : bool := negb (isSpace c || isUnit "@" c).

(** [/^\+?[\d\s\-\(\)]{10,}$/]. *)
Definition phoneRegex : Regex :=
  Seq (Opt (Class (isUnit "+"))) (AtLeast 10 (Class phoneChar)).

Definition isValidPhoneNumber (phone : Text) : bool := test phoneRegex phone.

(** [/^[^\s@]+@[^\s@]+\.[^\s@]+$/]. *)
Definition emailRegex : Regex :=
  Seq (Plus (Class emailChar))
    (Seq (Class (isUnit "@"))
       (Seq (Plus (Class emailChar))
          (Seq (Class (isUnit ".")) (Plus (Class emailChar))))).

Definition isValidEmail (email : Text) : bool := test emailRegex email.

(** The language of an expression. *)
Inductive Matches : Regex -> Text -> Prop :=
| MEps : Matches Eps []
| MClass p c : p c = true -> Matches (Class p) [c]
| MSeq r1 r2 s1 s2 :
    Matches r1 s1 -> Matches r2 s2 -> Matches (Seq r1 r2) (s1 ++ s2)%list
| MAltL r1 r2 s : Matches r1 s -> Matches (Alt r1 r2) s
| MAltR r1 r2 s : Matches r2 s -> Matches (Alt r1 r2) s
| MStarNil r : Matches (Star r) []
| MStarApp r s1 s2 :
    Matches r s1 -> Matches (Star r) s2 -> Matches (Star r) (s1 ++ s2)%list.

(** Every unit of the text is in the class. *)
Definition allIn (p : N -> bool) (s : Text) : Prop := Forall (fun c => p c = true) s.

End Validators.

(** ** The requests on health reports, by name *)

Module ReportRequests.
Import Auth Records.

Definition upload (u : User) : Access :=
  {| verb := Upload; store := HEALTH_REPORTS_BUCKET; owner := id u |}.

Definition discard (u : User) : Access :=
  {| verb := Remove; store := HEALTH_REPORTS_BUCKET; owner := id u |}.

Definition onReports (v : Verb) (u : User) : Access :=
  {| verb := v; store := HEALTH_REPORTS; owner := id u |}.

End ReportRequests.

(** ** Helpers to state properties of the façade *)

Module AuthRuns.
Import Auth.

(** The observers of a list registered one after the other. *)
Definition subscribeAll (cbs : list Callback) (m : AuthManager) : AuthManager :=
  fold_left (fun m cb => fst (fst (onAuthStateChange cb m))) cbs m.

End AuthRuns.

(* ================================================================== *)
(** * Part II: properties *)
(* ================================================================== *)

Section ScoringFacts.
Import Scoring.

(** The quotient test of the filter is the comparison of milliseconds. *)
Lemma isRecent_spec now s : isRecent now s = inWindow now s.
Proof.
  unfold isRecent, inWindow, daysDiff, Qle_bool. cbn.
  f_equal; lia.
Qed.

Lemma filter_recent now symptoms :
  filter (isRecent now) symptoms = filter (inWindow now) symptoms.
Proof. apply filter_ext. intros s. apply isRecent_spec. Qed.

Lemma inWindow_true now s :
  inWindow now s = true <-> now - recorded_at s <= 7 * msPerDay.
Proof. apply Z.leb_le. Qed.

Lemma inWindow_false now s :
  inWindow now s = false <-> 7 * msPerDay < now - recorded_at s.
Proof. apply Z.leb_gt. Qed.

(** The loop subtracts exactly the points of the entries it visits. *)
Lemma deduct_sum recent : forall total,
  deduct total recent = total - fold_right (fun s acc => severity s * 5 + acc) 0 recent.
Proof.
  unfold deduct. induction recent as [|s rest IH]; intros total; simpl.
  - lia.
  - rewrite IH. lia.
Qed.

Lemma filter_stale now symptoms :
  (forall s, In s symptoms -> 7 * msPerDay < now - recorded_at s) ->
  filter (inWindow now) symptoms = [].
Proof.
  induction symptoms as [|s rest IH]; intros Hold; simpl.
  - reflexivity.
  - assert (Hs : inWindow now s = false) by (apply inWindow_false, Hold; now left).
    rewrite Hs. apply IH. intros s' Hin. apply Hold. now right.
Qed.

(** The record the non-empty branch builds, by the value of [totalScore]. *)
Lemma nonempty_result now s rest medications :
  let total := 100 - deduction now (s :: rest) in
  calculateAsthmaControlScore now (s :: rest) medications =
    {| score := Z.max 0 total;
       level := if total >=? 80 then WellControlled
                else if total >=? 60 then PartlyControlled else PoorlyControlled;
       recommendations :=
         if total >=? 80 then wellRecommendations
         else if total >=? 60 then partlyRecommendations else poorlyRecommendations |}.
Proof.
  intros total. unfold calculateAsthmaControlScore.
  change (List.length (s :: rest) =? 0)%nat with false. cbv iota.
  rewrite deduct_sum, filter_recent. fold (deduction now (s :: rest)). fold total.
  destruct (total >=? 80); [reflexivity|].
  destruct (total >=? 60); reflexivity.
Qed.

Lemma classification (total : Z) (lvl : ControlLevel) :
  lvl = (if total >=? 80 then WellControlled
         else if total >=? 60 then PartlyControlled else PoorlyControlled) ->
  (lvl = WellControlled <-> 80 <= Z.max 0 total) /\
  (lvl = PartlyControlled <-> 60 <= Z.max 0 total < 80) /\
  (lvl = PoorlyControlled <-> Z.max 0 total < 60).
Proof.
  intros ->.
  destruct (total >=? 80) eqn:H80; [|destruct (total >=? 60) eqn:H60];
    rewrite ?Z.geb_leb, ?Z.leb_le, ?Z.leb_gt in *;
    repeat split; intros; try discriminate; try reflexivity; lia.
Qed.

(** C1: the score is 100 minus [severity * 5] for each entry of the 7-day
    window (held at 0 from below), and the level is WellControlled exactly
    when the score is at least 80, PartlyControlled exactly when it lies in
    [60, 80), PoorlyControlled exactly when it is below 60. One severity-5
    entry recorded now gives score 75 and PartlyControlled; entries of
    severity 5 and 4 inside the window give 55 and PoorlyControlled. *)
Theorem score_deducts_and_classifies now symptoms medications :
  let r := calculateAsthmaControlScore now symptoms medications in
  let total := 100 - deduction now symptoms in
  score r = Z.max 0 total /\
  (0 <= total -> score r = total) /\
  (level r = WellControlled <-> 80 <= score r) /\
  (level r = PartlyControlled <-> 60 <= score r < 80) /\
  (level r = PoorlyControlled <-> score r < 60) /\
  calculateAsthmaControlScore now [ {| severity := 5; recorded_at := now |} ] medications
    = {| score := 75; level := PartlyControlled;
         recommendations := partlyRecommendations |} /\
  (forall t1 t2,
     now - t1 <= 7 * msPerDay -> now - t2 <= 7 * msPerDay ->
     calculateAsthmaControlScore now
       [ {| severity := 5; recorded_at := t1 |}; {| severity := 4; recorded_at := t2 |} ]
       medications
     = {| score := 55; level := PoorlyControlled;
          recommendations := poorlyRecommendations |}).
Proof.
  intros r total.
  assert (Hmain : score r = Z.max 0 total /\
                  (level r = WellControlled <-> 80 <= score r) /\
                  (level r = PartlyControlled <-> 60 <= score r < 80) /\
                  (level r = PoorlyControlled <-> score r < 60)).
  { subst r total. destruct symptoms as [|s rest].
    - cbn. repeat split; intros; try discriminate; try reflexivity; lia.
    - rewrite nonempty_result. cbn [score level].
      split; [reflexivity|]. now apply classification. }
  destruct Hmain as (Hscore & Hw & Hp & Hq).
  repeat split; try (apply Hw); try (apply Hp); try (apply Hq); try assumption.
  - intros Hpos. rewrite Hscore. lia.
  - rewrite nonempty_result. unfold deduction. cbn [filter].
    assert (Hnow : inWindow now {| severity := 5; recorded_at := now |} = true)
      by (apply inWindow_true; cbn; unfold msPerDay; lia).
    rewrite Hnow. reflexivity.
  - intros t1 t2 H1 H2. rewrite nonempty_result. unfold deduction. cbn [filter].
    assert (R1 : inWindow now {| severity := 5; recorded_at := t1 |} = true)
      by (now apply inWindow_true).
    assert (R2 : inWindow now {| severity := 4; recorded_at := t2 |} = true)
      by (now apply inWindow_true).
    rewrite R1, R2. reflexivity.
Qed.

Lemma score_deducts_and_classifies_witness :
  let now := 1700000000000 in
  (now - (now - msPerDay) <= 7 * msPerDay) /\
  (now - (now - 7 * msPerDay) <= 7 * msPerDay) /\
  calculateAsthmaControlScore now
    [ {| severity := 5; recorded_at := now - msPerDay |};
      {| severity := 4; recorded_at := now - 7 * msPerDay |} ] []
  = {| score := 55; level := PoorlyControlled;
       recommendations := poorlyRecommendations |}.
Proof.
  intros now.
  assert (H1 : now - (now - msPerDay) <= 7 * msPerDay) by (vm_compute; discriminate).
  assert (H2 : now - (now - 7 * msPerDay) <= 7 * msPerDay) by (vm_compute; discriminate).
  split; [exact H1|]. split; [exact H2|].
  exact (proj2 (proj2 (proj2 (proj2 (proj2 (proj2
    (score_deducts_and_classifies now [] [])))))) _ _ H1 H2).
Defined.

(** C4, as amended: a non-empty sequence whose entries are all strictly
    older than 7 days scores 100 and is WellControlled, with the three
    recommendations of the WellControlled level. *)
Theorem stale_symptoms_score now symptoms medications :
  symptoms <> [] ->
  (forall s, In s symptoms -> 7 * msPerDay < now - recorded_at s) ->
  calculateAsthmaControlScore now symptoms medications
  = {| score := 100; level := WellControlled;
       recommendations := wellRecommendations |}.
Proof.
  intros Hne Hold. destruct symptoms as [|s rest]; [congruence|].
  rewrite nonempty_result. unfold deduction.
  rewrite (filter_stale _ _ Hold). reflexivity.
Qed.

Lemma stale_symptoms_score_witness :
  calculateAsthmaControlScore 1700000000000
    [ {| severity := 5; recorded_at := 1700000000000 - 8 * msPerDay |} ] []
  = {| score := 100; level := WellControlled;
       recommendations := wellRecommendations |}.
Proof.
  apply stale_symptoms_score.
  - discriminate.
  - intros s [<-|[]]. vm_compute. reflexivity.
Defined.

(** C4 as stated fails: for one entry recorded 8 days before the call the
    result is not the result of the empty input; the recommendations are
    the three of the WellControlled level, not the two of the early return. *)
Lemma stale_symptoms_differ_from_empty :
  let now := 1700000000000 in
  let symptoms := [ {| severity := 5; recorded_at := now - 8 * msPerDay |} ] in
  symptoms <> [] /\
  (forall s, In s symptoms -> 7 * msPerDay < now - recorded_at s) /\
  calculateAsthmaControlScore now symptoms []
    <> calculateAsthmaControlScore now [] [] /\
  List.length (recommendations (calculateAsthmaControlScore now symptoms [])) = 3%nat /\
  List.length (recommendations (calculateAsthmaControlScore now [] [])) = 2%nat.
Proof.
  intros now symptoms. split; [discriminate|]. split.
  - intros s [<-|[]]. vm_compute. reflexivity.
  - split; [|split; vm_compute; reflexivity].
    intros Heq. apply (f_equal (fun r => List.length (recommendations r))) in Heq.
    vm_compute in Heq. discriminate.
Qed.

(** C6: the score is never negative; ten severity-5 entries inside the
    window bring the running total to -150 and the score to 0. *)
Theorem score_never_negative now symptoms medications :
  0 <= score (calculateAsthmaControlScore now symptoms medications) /\
  (forall t, now - t <= 7 * msPerDay ->
     let ten := repeat {| severity := 5; recorded_at := t |} 10 in
     100 - deduction now ten = -150 /\
     score (calculateAsthmaControlScore now ten medications) = 0).
Proof.
  split.
  - destruct symptoms as [|s rest]; [cbn; lia|].
    rewrite nonempty_result. cbn [score]. lia.
  - intros t Ht ten.
    assert (R : inWindow now {| severity := 5; recorded_at := t |} = true)
      by (now apply inWindow_true).
    assert (D : 100 - deduction now ten = -150).
    { unfold deduction, ten. cbn [repeat filter]. rewrite R. reflexivity. }
    split; [exact D|].
    unfold ten in *. cbn [repeat] in *. rewrite nonempty_result. cbn [score].
    rewrite D. reflexivity.
Qed.

Lemma score_never_negative_witness :
  let now := 1700000000000 in
  now - now <= 7 * msPerDay /\
  score (calculateAsthmaControlScore now
           (repeat {| severity := 5; recorded_at := now |} 10) []) = 0.
Proof.
  intros now.
  assert (H : now - now <= 7 * msPerDay) by (vm_compute; discriminate).
  split; [exact H|].
  exact (proj2 (proj2 (score_never_negative now [] []) now H)).
Defined.

(** C10: the result does not depend on the medications argument. *)
Theorem medications_ignored now symptoms
    (medications1 medications2 : list MedicationEvent) :
  calculateAsthmaControlScore now symptoms medications1
  = calculateAsthmaControlScore now symptoms medications2.
Proof. reflexivity. Qed.

End ScoringFacts.

Section StringFacts.
Import JsString.

Lemma toLowerCase_app s t :
  toLowerCase (s ++ t) = toLowerCase s ++ toLowerCase t.
Proof.
  induction s as [|c s IH]; simpl; [reflexivity|]. now rewrite IH.
Qed.

Lemma startsWith_app k rest : startsWith (k ++ rest) k = true.
Proof.
  induction k as [|c k IH]; simpl; [reflexivity|].
  now rewrite Ascii.eqb_refl, IH.
Qed.

Lemma startsWith_split s k :
  startsWith s k = true -> exists rest, s = k ++ rest.
Proof.
  revert s. induction k as [|c k IH]; intros s H.
  - exists s. reflexivity.
  - destruct s as [|d s]; simpl in H; [discriminate|].
    apply andb_true_iff in H as [Hc Hk]. apply Ascii.eqb_eq in Hc. subst d.
    destruct (IH _ Hk) as [rest ->]. exists rest. reflexivity.
Qed.

Lemma includes_here s k : startsWith s k = true -> includes s k = true.
Proof. intros H. destruct s; simpl in *; rewrite H; reflexivity. Qed.

Lemma includes_later c s k : includes s k = true -> includes (String c s) k = true.
Proof. intros H. simpl. rewrite H. apply orb_true_r. Qed.

(** [includes] is the substring test. *)
Lemma includes_spec s k :
  includes s k = true <-> exists before after, s = before ++ k ++ after.
Proof.
  split.
  - induction s as [|c s IH]; intros H.
    + simpl in H. rewrite orb_false_r in H.
      destruct (startsWith_split _ _ H) as [rest E]. exists "", rest. exact E.
    + simpl in H. apply orb_true_iff in H as [H|H].
      * destruct (startsWith_split (String c s) k H) as [rest E]. exists "", rest. exact E.
      * destruct (IH H) as (before & after & ->). now exists (String c before), after.
  - intros (before & after & ->).
    induction before as [|c before IH].
    + cbn [append]. apply includes_here, startsWith_app.
    + cbn [append]. apply includes_later, IH.
Qed.

End StringFacts.

Section ChatFacts.
Import JsString Chat.

Lemma simulateAIResponse_firstMatch message :
  simulateAIResponse message = firstMatch message.
Proof.
  unfold simulateAIResponse, firstMatch, keywordGroups, groupMatches.
  cbn [find existsb fst snd].
  rewrite !orb_false_r, !orb_assoc.
  repeat match goal with
         | |- context [if ?c then _ else _] => destruct c; try reflexivity
         end.
Qed.

Lemma find_first {A} (p : A -> bool) before g after :
  (forall h, In h before -> p h = false) -> p g = true ->
  find p (before ++ g :: after) = Some g.
Proof.
  intros Hb Hg. induction before as [|h before IH]; simpl.
  - now rewrite Hg.
  - rewrite (Hb h) by now left. apply IH. intros h' Hin. apply Hb. now right.
Qed.

Lemma find_none {A} (p : A -> bool) l :
  (forall h, In h l -> p h = false) -> find p l = None.
Proof.
  intros H. induction l as [|h l IH]; simpl; [reflexivity|].
  rewrite (H h) by now left. apply IH. intros h' Hin. apply H. now right.
Qed.

(** C5: the responder lower-cases the message and answers with the
    response of the first keyword group, in the fixed order that starts
    with the emergency group, one of whose keywords is a substring of the
    lower-cased message; it answers with the default response when no
    keyword is. A message with "can't breathe" inside it, in any casing and
    between any words, gets the emergency response. *)
Theorem responder_first_match_wins message :
  simulateAIResponse message = firstMatch message /\
  hd_error keywordGroups
    = Some (["emergency"; "can't breathe"; "severe"], emergencyResponse) /\
  (forall before g after,
     keywordGroups = (before ++ g :: after)%list ->
     (forall h, In h before -> groupMatches (toLowerCase message) h = false) ->
     groupMatches (toLowerCase message) g = true ->
     simulateAIResponse message = snd g) /\
  ((forall g, In g keywordGroups -> groupMatches (toLowerCase message) g = false) ->
   simulateAIResponse message = defaultResponse) /\
  (forall before phrase after,
     toLowerCase phrase = "can't breathe" ->
     simulateAIResponse (before ++ phrase ++ after) = emergencyResponse).
Proof.
  split; [apply simulateAIResponse_firstMatch|].
  split; [reflexivity|].
  split; [|split].
  - intros before g after Hgroups Hbefore Hg.
    rewrite simulateAIResponse_firstMatch. unfold firstMatch.
    rewrite Hgroups, (find_first _ _ _ _ Hbefore Hg). reflexivity.
  - intros Hnone. rewrite simulateAIResponse_firstMatch. unfold firstMatch.
    rewrite (find_none _ _ Hnone). reflexivity.
  - intros before phrase after Hphrase.
    assert (Hin : includes (toLowerCase (before ++ phrase ++ after)) "can't breathe" = true).
    { apply includes_spec. exists (toLowerCase before), (toLowerCase after).
      now rewrite !toLowerCase_app, Hphrase. }
    unfold simulateAIResponse. rewrite Hin, orb_true_r. reflexivity.
Qed.

Lemma responder_first_match_wins_witness :
  simulateAIResponse "what TRIGGERS my asthma" = triggerResponse /\
  simulateAIResponse "hello there" = defaultResponse /\
  simulateAIResponse "I CAN'T Breathe!" = emergencyResponse.
Proof.
  split; [|split].
  - apply (proj1 (proj2 (proj2 (responder_first_match_wins "what TRIGGERS my asthma")))
             [ (["emergency"; "can't breathe"; "severe"], emergencyResponse);
               (["inhaler"; "medication"], medicationResponse) ]
             (["trigger"; "allergen"], triggerResponse)
             [ (["exercise"; "activity"], exerciseResponse);
               (["air quality"; "pollution"], airQualityResponse);
               (["stress"; "anxiety"], stressResponse);
               (["diet"; "food"], dietResponse) ]).
    + reflexivity.
    + intros h [<-|[<-|[]]]; vm_compute; reflexivity.
    + vm_compute. reflexivity.
  - apply (proj1 (proj2 (proj2 (proj2 (responder_first_match_wins "hello there"))))).
    intros g Hin. unfold keywordGroups in Hin. simpl in Hin.
    repeat (destruct Hin as [<-|Hin]; [vm_compute; reflexivity|]). destruct Hin.
  - apply (proj2 (proj2 (proj2 (proj2 (responder_first_match_wins ""))))
             "I " "CAN'T Breathe" "!").
    vm_compute. reflexivity.
Defined.

(** C9: the response of [sendChatMessage], and the world it leaves, do not
    depend on the conversation context; the response is the one the
    responder gives to the message alone. *)
Theorem context_ignored message (context1 context2 : list ChatTurn) w :
  sendChatMessage message context1 w = sendChatMessage message context2 w /\
  snd (sendChatMessage message context1 w) = inr (simulateAIResponse message).
Proof. split; reflexivity. Qed.

End ChatFacts.

Section AirQualityFacts.
Import JsString AirQuality.

Lemma isDataFresh_spec now timestamp minutes :
  isDataFresh now timestamp minutes = (now - timestamp <? minutes * (1000 * 60)).
Proof.
  unfold isDataFresh, Qlt_bool. cbn. f_equal; lia.
Qed.

Lemma fresh_30 now timestamp :
  isDataFresh now timestamp 30 = true <-> now - timestamp < windowMs.
Proof. rewrite isDataFresh_spec, Z.ltb_lt. unfold windowMs. lia. Qed.

Lemma stale_30 now timestamp :
  isDataFresh now timestamp 30 = false <-> windowMs <= now - timestamp.
Proof. rewrite isDataFresh_spec, Z.ltb_ge. unfold windowMs. lia. Qed.

Lemma newer_fold rows : forall b,
  exists r, fold_left newer rows (Some b) = Some r /\
            (r = b \/ In r rows) /\
            created_at b <= created_at r /\
            (forall x, In x rows -> created_at x <= created_at r).
Proof.
  induction rows as [|x rest IH]; intros b.
  - exists b. simpl. repeat split; auto; try lia; try contradiction.
  - simpl. destruct (created_at b <? created_at x) eqn:Hlt.
    + apply Z.ltb_lt in Hlt.
      destruct (IH x) as (r & Hr & Hin & Hle & Hall).
      exists r. repeat split; auto; try lia.
      * right. destruct Hin as [->|Hin]; [now left | now right].
      * intros y [<-|Hy]; auto.
    + apply Z.ltb_ge in Hlt.
      destruct (IH b) as (r & Hr & Hin & Hle & Hall).
      exists r. repeat split; auto.
      * destruct Hin as [->|Hin]; [now left | right; now right].
      * intros y [<-|Hy]; [lia | auto].
Qed.

(** [mostRecent] picks a row of the list that no row of the list is newer
    than, whenever the list has a row. *)
Lemma mostRecent_some rows :
  rows <> [] ->
  exists r, mostRecent rows = Some r /\ In r rows /\
            (forall x, In x rows -> created_at x <= created_at r).
Proof.
  destruct rows as [|b rest]; [congruence|]. intros _.
  unfold mostRecent. simpl.
  destruct (newer_fold rest b) as (r & Hr & Hin & Hle & Hall).
  exists r. repeat split; auto.
  - destruct Hin as [->|Hin]; [now left | now right].
  - intros y [<-|Hy]; auto.
Qed.

Lemma lookup_answered (lowerCase : string -> string) w n loc :
  select_fault w n = None ->
  getCachedAirQuality lowerCase w n loc = mostRecent (rowsFor lowerCase w loc).
Proof.
  intros Hok. unfold getCachedAirQuality, selectSingle. rewrite Hok.
  fold (rowsFor lowerCase w loc). destruct (mostRecent (rowsFor lowerCase w loc)); reflexivity.
Qed.

Lemma lookup_found (lowerCase : string -> string) w n loc row :
  getCachedAirQuality lowerCase w n loc = Some row ->
  mostRecent (rowsFor lowerCase w loc) = Some row.
Proof.
  unfold getCachedAirQuality, selectSingle. fold (rowsFor lowerCase w loc).
  destruct (select_fault w n) as [code|].
  - destruct (negb (String.eqb code "PGRST116")); discriminate.
  - destruct (mostRecent (rowsFor lowerCase w loc)); [auto | discriminate].
Qed.

Lemma rowsFor_absent (lowerCase : string -> string) w loc :
  (forall entry, In entry (table w) -> location entry <> lowerCase loc) ->
  rowsFor lowerCase w loc = [].
Proof.
  unfold rowsFor. induction (table w) as [|x rest IH]; intros Habs; simpl.
  - reflexivity.
  - assert (Hx : String.eqb (location x) (lowerCase loc) = false)
      by (apply String.eqb_neq, Habs; now left).
    rewrite Hx. apply IH. intros e He. apply Habs. now right.
Qed.

Lemma lookup_absent (lowerCase : string -> string) w n loc :
  rowsFor lowerCase w loc = [] -> getCachedAirQuality lowerCase w n loc = None.
Proof.
  intros Hnil. destruct (getCachedAirQuality lowerCase w n loc) as [row|] eqn:Hl; [|reflexivity].
  apply lookup_found in Hl. rewrite Hnil in Hl. discriminate.
Qed.

Lemma refetch_fetches (lowerCase : string -> string) loc w : fetched (refetch lowerCase loc w) = [requestUrl loc].
Proof.
  unfold refetch. destruct (fetchFresh w loc); [|reflexivity].
  destruct (getCachedAirQuality lowerCase w 1 loc); reflexivity.
Qed.

(** C2: when the lookup finds an entry, [checkAirQuality] answers with its
    payload without any request to the weather API exactly when the entry
    is younger than 30 minutes; otherwise it makes the request. An entry
    stored at T is served from the cache at T + 29 minutes and refetched at
    T + 31 minutes. *)
Theorem cache_served_iff_fresh (lowerCase : string -> string) loc w cachedData :
  getCachedAirQuality lowerCase w 0 loc = Some cachedData ->
  let run := checkAirQuality lowerCase loc w in
  ((fetched run = [] /\ result run = inr (data cachedData))
     <-> now w - created_at cachedData < windowMs) /\
  (fetched run = [requestUrl loc] <-> windowMs <= now w - created_at cachedData) /\
  (now w = created_at cachedData + 29 * 60 * 1000 ->
     fetched run = [] /\ result run = inr (data cachedData)) /\
  (now w = created_at cachedData + 31 * 60 * 1000 ->
     fetched run = [requestUrl loc]).
Proof.
  intros Hlook run.
  assert (Hfresh : now w - created_at cachedData < windowMs ->
                   fetched run = [] /\ result run = inr (data cachedData)).
  { intros H. apply fresh_30 in H. subst run. unfold checkAirQuality.
    rewrite Hlook, H. split; reflexivity. }
  assert (Hstale : windowMs <= now w - created_at cachedData ->
                   fetched run = [requestUrl loc]).
  { intros H. apply stale_30 in H. subst run. unfold checkAirQuality.
    rewrite Hlook, H. apply refetch_fetches. }
  repeat split.
  - intros [Hnone _].
    destruct (Z.lt_ge_cases (now w - created_at cachedData) windowMs) as [Hlt|Hge];
      [exact Hlt|]. rewrite (Hstale Hge) in Hnone. discriminate.
  - apply Hfresh. assumption.
  - apply Hfresh. assumption.
  - intros Hreq.
    destruct (Z.lt_ge_cases (now w - created_at cachedData) windowMs) as [Hlt|Hge];
      [|exact Hge]. destruct (Hfresh Hlt) as [Hnone _]. rewrite Hnone in Hreq.
    discriminate.
  - exact Hstale.
  - apply Hfresh. unfold windowMs. lia.
  - apply Hfresh. unfold windowMs. lia.
  - intros Hnow. apply Hstale. unfold windowMs. lia.
Qed.

Lemma cache_served_iff_fresh_witness :
  let stored := {| location := "london"; data := "{aqi: 2}"; created_at := 1700000000000 |} in
  let w := {| table := [stored]; now := 1700000000000 + 29 * 60 * 1000; elapsed := 250;
              remote := fun _ => FetchRejects "offline";
              select_fault := fun _ => None; insert_ok := true |} in
  getCachedAirQuality toLowerCase w 0 "London" = Some stored /\
  fetched (checkAirQuality toLowerCase "London" w) = [] /\
  result (checkAirQuality toLowerCase "London" w) = inr "{aqi: 2}".
Proof.
  intros stored w.
  assert (Hlook : getCachedAirQuality toLowerCase w 0 "London" = Some stored) by reflexivity.
  split; [exact Hlook|].
  exact (proj1 (proj2 (proj2 (cache_served_iff_fresh toLowerCase "London" w stored Hlook)))
           eq_refl).
Defined.

Lemma lookup_faulted lowerCase w n loc code :
  select_fault w n = Some code -> getCachedAirQuality lowerCase w n loc = None.
Proof.
  intros Hfault. unfold getCachedAirQuality, selectSingle. rewrite Hfault.
  destruct (negb (String.eqb code "PGRST116")); reflexivity.
Qed.

Lemma refetch_fallback lowerCase loc w error :
  fetchFresh w loc = inl error ->
  result (refetch lowerCase loc w)
  = match getCachedAirQuality lowerCase w 1 loc with
    | Some fallbackData => inr (data fallbackData)
    | None => inl error
    end.
Proof.
  intros Hfail. unfold refetch. rewrite Hfail.
  destruct (getCachedAirQuality lowerCase w 1 loc); reflexivity.
Qed.

Lemma request_made lowerCase loc w :
  fetched (checkAirQuality lowerCase loc w) <> [] ->
  checkAirQuality lowerCase loc w = refetch lowerCase loc w.
Proof.
  unfold checkAirQuality.
  destruct (getCachedAirQuality lowerCase w 0 loc) as [c|]; [|reflexivity].
  destruct (isDataFresh (now w) (created_at c) 30); [|reflexivity].
  cbn. congruence.
Qed.

(** C3, as amended: when the fetch of fresh data fails, [checkAirQuality]
    answers with the payload of the entry the fallback lookup returns,
    whatever its age, and not with an error; with the backend answering
    that lookup, this is the newest entry of the key whenever the table has
    one. When the fallback lookup returns no entry, because the table has
    none for the key or because the lookup itself fails, the failure of the
    fetch reaches the caller. *)
Theorem fetch_failure_falls_back lowerCase loc w error :
  fetchFresh w loc = inl error ->
  let run := checkAirQuality lowerCase loc w in
  (forall row, getCachedAirQuality lowerCase w 1 loc = Some row ->
               result run = inr (data row)) /\
  (select_fault w 1 = None ->
   forall entry, In entry (table w) -> location entry = lowerCase loc ->
     exists row, In row (table w) /\ location row = lowerCase loc /\
                 created_at entry <= created_at row /\
                 result run = inr (data row)) /\
  (fetched run <> [] -> getCachedAirQuality lowerCase w 1 loc = None ->
   result run = inl error) /\
  (fetched run <> [] -> forall code, select_fault w 1 = Some code ->
   result run = inl error) /\
  ((forall entry, In entry (table w) -> location entry <> lowerCase loc) ->
   result run = inl error).
Proof.
  intros Hfail run.
  assert (Hfound : forall row, getCachedAirQuality lowerCase w 1 loc = Some row ->
                               result run = inr (data row)).
  { intros row Hfb. subst run. unfold checkAirQuality.
    assert (Hre : result (refetch lowerCase loc w) = inr (data row))
      by (rewrite (refetch_fallback _ _ _ _ Hfail), Hfb; reflexivity).
    destruct (getCachedAirQuality lowerCase w 0 loc) as [cachedData|] eqn:Hfirst;
      [|exact Hre].
    destruct (isDataFresh (now w) (created_at cachedData) 30); [|exact Hre].
    apply lookup_found in Hfirst. apply lookup_found in Hfb.
    rewrite Hfirst in Hfb. injection Hfb as ->. reflexivity. }
  assert (Hnone : fetched run <> [] -> getCachedAirQuality lowerCase w 1 loc = None ->
                  result run = inl error).
  { intros Hmade Hfb. subst run. rewrite (request_made _ _ _ Hmade).
    rewrite (refetch_fallback _ _ _ _ Hfail), Hfb. reflexivity. }
  split; [exact Hfound|]. split; [|split; [exact Hnone|split]].
  - intros Hok entry Hin Hkey.
    assert (Hrows : In entry (rowsFor lowerCase w loc)).
    { unfold rowsFor. apply filter_In. split; [exact Hin|].
      now apply String.eqb_eq. }
    destruct (mostRecent_some (rowsFor lowerCase w loc)) as (row & Hrow & Hrin & Hmax).
    { intros Hnil. rewrite Hnil in Hrows. destruct Hrows. }
    exists row. unfold rowsFor in Hrin. apply filter_In in Hrin as [Htab Hloc].
    apply String.eqb_eq in Hloc.
    repeat split; auto.
    apply Hfound. rewrite (lookup_answered _ _ _ _ Hok). exact Hrow.
  - intros Hmade code Hfault. apply Hnone; [exact Hmade|].
    exact (lookup_faulted _ _ _ _ _ Hfault).
  - intros Habsent. apply rowsFor_absent in Habsent.
    subst run. unfold checkAirQuality, refetch.
    rewrite !(lookup_absent _ _ _ _ Habsent), Hfail. reflexivity.
Qed.

Lemma fetch_failure_falls_back_witness :
  let stale := {| location := "pune"; data := "{aqi: 4}"; created_at := 1700000000000 |} in
  let w := {| table := [stale]; now := 1700000000000 + 3 * 60 * 60 * 1000; elapsed := 250;
              remote := fun _ => FetchResponds false 503 None;
              select_fault := fun _ => None; insert_ok := true |} in
  let empty := {| table := []; now := now w; elapsed := 250;
                  remote := remote w; select_fault := select_fault w;
                  insert_ok := true |} in
  fetchFresh w "Pune" = inl (ApiError 503) /\
  result (checkAirQuality toLowerCase "Pune" w) = inr "{aqi: 4}" /\
  result (checkAirQuality toLowerCase "Pune" empty) = inl (ApiError 503).
Proof.
  intros stale w empty.
  assert (Hfail : fetchFresh w "Pune" = inl (ApiError 503)) by reflexivity.
  assert (Hfail' : fetchFresh empty "Pune" = inl (ApiError 503)) by reflexivity.
  split; [exact Hfail|]. split.
  - exact (proj1 (fetch_failure_falls_back toLowerCase "Pune" w _ Hfail) stale eq_refl).
  - apply (proj2 (proj2 (proj2 (proj2
             (fetch_failure_falls_back toLowerCase "Pune" empty _ Hfail'))))).
    intros entry [].
Defined.

(** C3 as stated fails: the table holds an entry of the key and the fetch
    fails, but the fallback lookup fails too; [getCachedAirQuality] catches
    that and returns null, so the call ends with the error of the fetch and
    not with the payload of the entry. *)
Lemma fallback_lookup_failure_propagates :
  let stored := {| location := "pune"; data := "{aqi: 4}"; created_at := 1700000000000 |} in
  let w := {| table := [stored]; now := 1700000000000 + 3 * 60 * 60 * 1000; elapsed := 250;
              remote := fun _ => FetchRejects "offline";
              select_fault := fun _ => Some "08006"; insert_ok := true |} in
  In stored (table w) /\
  location stored = toLowerCase "Pune" /\
  fetchFresh w "Pune" = inl (NetworkError "offline") /\
  result (checkAirQuality toLowerCase "Pune" w) = inl (NetworkError "offline") /\
  result (checkAirQuality toLowerCase "Pune" w) <> inr (data stored).
Proof.
  intros stored w. split; [now left|]. repeat split. discriminate.
Qed.

End AirQualityFacts.

Section AuthFacts.
Import Auth.

(** Once [initialized] is set, the listener is registered with the provider. *)
Lemma initialized_listening m :
  reachable m -> initialized m = true -> listening m = true.
Proof.
  induction 1 as [|r m Hm IH Hinit|callback m Hm IH|callback m Hm IH
                  |navbar event session m Hm IH]; intros Hi.
  - discriminate.
  - destruct r; simpl in *; [congruence | reflexivity].
  - unfold onAuthStateChange in *. simpl in *.
    destruct (initialized m); simpl in *; auto.
  - simpl in *. auto.
  - unfold transition in *. destruct (listening m) eqn:Hl; simpl in *; auto.
    rewrite Hl. auto.
Qed.

Lemma invocations_app callback e1 e2 :
  invocations callback (e1 ++ e2) = (invocations callback e1 ++ invocations callback e2)%list.
Proof. unfold invocations. apply flat_map_app. Qed.

Lemma invocations_notifyAll callback current event cbs :
  invocations callback (notifyAll current event cbs)
  = repeat (current, event) (registrations callback cbs).
Proof.
  unfold registrations. induction cbs as [|c cbs IH]; simpl; [reflexivity|].
  destruct (cb_id c =? cb_id callback)%nat; simpl; now rewrite IH.
Qed.

Lemma registrations_app callback cbs1 cbs2 :
  registrations callback (cbs1 ++ cbs2)
  = (registrations callback cbs1 + registrations callback cbs2)%nat.
Proof. unfold registrations. now rewrite filter_app, length_app. Qed.

(** A transition calls an observer once for each of its registrations,
    whatever the other observers do. *)
Lemma transition_notifies callback navbar event session m :
  listening m = true ->
  invocations callback (snd (transition navbar event session m))
  = repeat (sessionUser session, event) (registrations callback (authCallbacks m)).
Proof.
  intros Hlisten. unfold transition. rewrite Hlisten. simpl.
  rewrite invocations_app, invocations_notifyAll.
  destruct navbar; simpl; now rewrite app_nil_r.
Qed.

(** C7: an observer registered once the manager is initialized is called at
    once, exactly one time, with the current user and [INITIAL_SESSION], and
    no other observer is called then; at the next auth-state transition it
    is called again with the new user and the event of the transition, once
    for each time it has been registered. *)
Theorem observer_replayed_then_notified callback m :
  reachable m -> initialized m = true ->
  let registered := onAuthStateChange callback m in
  let m1 := fst (fst registered) in
  snd (fst registered) = [Invoked (cb_id callback) (currentUser m) "INITIAL_SESSION"] /\
  invocations callback (snd (fst registered)) = [(currentUser m, "INITIAL_SESSION")] /\
  forall navbar event session,
    let delivered := transition navbar event session m1 in
    currentUser (fst delivered) = sessionUser session /\
    In (Invoked (cb_id callback) (sessionUser session) event) (snd delivered) /\
    invocations callback (snd delivered)
    = repeat (sessionUser session, event) (S (registrations callback (authCallbacks m))).
Proof.
  intros Hreach Hinit registered m1.
  pose proof (initialized_listening m Hreach Hinit) as Hlisten.
  subst m1 registered. unfold onAuthStateChange. simpl. rewrite Hinit. simpl.
  split; [reflexivity|]. split.
  - now rewrite Nat.eqb_refl.
  - intros navbar event session. split; [|split].
    + unfold transition. simpl. rewrite Hlisten. reflexivity.
    + unfold transition. simpl. rewrite Hlisten. simpl.
      apply in_or_app. left. unfold notifyAll. rewrite map_app. apply in_or_app.
      right. now left.
    + rewrite transition_notifies by exact Hlisten. simpl.
      rewrite registrations_app. unfold registrations at 2. simpl.
      rewrite Nat.eqb_refl. simpl. rewrite Nat.add_1_r. reflexivity.
Qed.

Lemma observer_replayed_then_notified_witness :
  let alice := {| id := "u-1"; email := "alice@example.org" |} in
  let bob := {| id := "u-2"; email := "bob@example.org" |} in
  let m := init (GetSessionResolves (Some {| user := alice; access_token := "t1" |}) None)
                constructed in
  let observer := {| cb_id := 7; cb_throws := false |} in
  let m1 := fst (fst (onAuthStateChange observer m)) in
  snd (fst (onAuthStateChange observer m)) = [Invoked 7 (Some alice) "INITIAL_SESSION"] /\
  invocations observer
    (snd (transition true "SIGNED_IN" (Some {| user := bob; access_token := "t2" |}) m1))
  = [(Some bob, "SIGNED_IN")].
Proof.
  intros alice bob m observer m1.
  assert (Hreach : reachable m) by (apply reach_init; [apply reach_constructed | reflexivity]).
  pose proof (observer_replayed_then_notified observer m Hreach eq_refl) as H.
  split.
  - exact (proj1 H).
  - exact (proj2 (proj2 (proj2 (proj2 H) true "SIGNED_IN"
                   (Some {| user := bob; access_token := "t2" |})))).
Defined.

End AuthFacts.

Section RecordsFacts.
Import Auth Records.

(** Runs an operation of the layer down to the answers of the backend and
    splits on each error the operation tests. *)
Ltac run_layer :=
  cbv [perform run getChatHistory uploadHealthReport getHealthReports
       deleteHealthReport bookAppointment getAppointments cancelAppointment
       rescheduleAppointment logSymptom getSymptomHistory logMedicationUsage
       getMedicationHistory addEmergencyContact getEmergencyContacts exportUserData
       writeOne readMany tryCatch bind requireUser request ret throw orThrow app];
  repeat match goal with
         | |- context [match error ?a with _ => _ end] => destruct (error a)
         end.

(** With a user, an operation does reach the store, on behalf of that user. *)
Lemma logSymptom_stores u backend :
  snd (run (logSymptom (Some u)) backend)
  = [ {| verb := Insert; store := SYMPTOMS; owner := id u |} ].
Proof. run_layer; reflexivity. Qed.

(** C8, as amended: with no current user, no operation of the layer
    reaches the store; every operation but [getChatHistory] fails with the
    Unauthenticated condition (it rejects with the error or resolves to a
    result that carries it), and [getChatHistory] resolves to the empty list. *)
Theorem no_user_no_access op backend :
  let settled := run (perform op None) backend in
  snd settled = [] /\
  (isGetChatHistory op = false -> unauthenticated (fst settled) = true) /\
  (isGetChatHistory op = true -> fst settled = Fulfilled (Plain (JArr []))).
Proof.
  destruct op; cbn; repeat split; intros; try reflexivity; discriminate.
Qed.

Lemma no_user_no_access_witness :
  let backend := fun _ : Access => {| data := JArr []; error := None |} in
  unauthenticated (fst (run (perform OpLogSymptom None) backend)) = true /\
  fst (run (perform OpGetChatHistory None) backend) = Fulfilled (Plain (JArr [])).
Proof.
  intros backend. split.
  - exact (proj1 (proj2 (no_user_no_access OpLogSymptom backend)) eq_refl).
  - exact (proj2 (proj2 (no_user_no_access OpGetChatHistory backend)) eq_refl).
Defined.

(** C8 as stated fails: with no current user [getChatHistory] does not fail
    with the Unauthenticated condition, it resolves to the empty list. *)
Lemma getChatHistory_resolves_without_user :
  let backend := fun _ : Access => {| data := JArr []; error := None |} in
  run (perform OpGetChatHistory None) backend = (Fulfilled (Plain (JArr [])), []) /\
  unauthenticated (fst (run (perform OpGetChatHistory None) backend)) = false.
Proof. split; reflexivity. Qed.

End RecordsFacts.

(* ------------------------------------------------------------------ *)
(** ** Further properties of the scoring engine *)

Section ScoringMore.
Import Scoring.

Lemma deduction_nonneg now symptoms :
  (forall s, In s symptoms -> 0 <= severity s) -> 0 <= deduction now symptoms.
Proof.
  unfold deduction. induction symptoms as [|s rest IH]; intros Hpos; simpl; [lia|].
  assert (Hrest : 0 <= fold_right (fun s acc => severity s * 5 + acc) 0
                         (filter (inWindow now) rest))
    by (apply IH; intros x Hx; apply Hpos; now right).
  destruct (inWindow now s); simpl; [|exact Hrest].
  assert (0 <= severity s) by (apply Hpos; now left). lia.
Qed.

Lemma deduction_cons now s rest :
  deduction now (s :: rest)
  = (if inWindow now s then severity s * 5 else 0) + deduction now rest.
Proof. unfold deduction. simpl. destruct (inWindow now s); reflexivity. Qed.

Lemma deduction_perm now symptoms1 symptoms2 :
  Permutation symptoms1 symptoms2 ->
  deduction now symptoms1 = deduction now symptoms2.
Proof.
  induction 1 as [|x l l' _ IH|x y l|l l' l'' _ IH1 _ IH2].
  - reflexivity.
  - rewrite !deduction_cons, IH. reflexivity.
  - rewrite !deduction_cons. lia.
  - congruence.
Qed.

(** With severities that are not negative (the table admits 1 to 5), the
    score lies between 0 and 100. *)
Theorem score_in_range now symptoms medications :
  (forall s, In s symptoms -> 0 <= severity s) ->
  0 <= score (calculateAsthmaControlScore now symptoms medications) <= 100.
Proof.
  intros Hpos. destruct symptoms as [|s rest]; [cbn; lia|].
  rewrite nonempty_result. cbn [score].
  pose proof (deduction_nonneg now (s :: rest) Hpos). lia.
Qed.

Lemma score_in_range_witness :
  0 <= score (calculateAsthmaControlScore 1700000000000
                [ {| severity := 3; recorded_at := 1700000000000 - msPerDay |};
                  {| severity := 1; recorded_at := 1700000000000 |} ] []) <= 100.
Proof.
  apply score_in_range.
  intros s [<-|[<-|[]]]; cbn; lia.
Defined.

(** The result does not depend on the order of the entries. *)
Theorem score_order_irrelevant now symptoms1 symptoms2 medications :
  Permutation symptoms1 symptoms2 ->
  calculateAsthmaControlScore now symptoms1 medications
  = calculateAsthmaControlScore now symptoms2 medications.
Proof.
  intros Hperm.
  destruct symptoms1 as [|s1 rest1]; destruct symptoms2 as [|s2 rest2].
  - reflexivity.
  - apply Permutation_nil in Hperm. discriminate.
  - apply Permutation_sym, Permutation_nil in Hperm.
    discriminate.
  - rewrite !nonempty_result, (deduction_perm now _ _ Hperm). reflexivity.
Qed.

Lemma score_order_irrelevant_witness :
  let a := {| severity := 5; recorded_at := 1700000000000 |} in
  let b := {| severity := 2; recorded_at := 1700000000000 - 9 * msPerDay |} in
  calculateAsthmaControlScore 1700000000000 [a; b] []
  = calculateAsthmaControlScore 1700000000000 [b; a] [].
Proof.
  intros a b. apply score_order_irrelevant. apply perm_swap.
Defined.

(** One more entry of non-negative severity never raises the score. *)
Theorem extra_symptom_never_raises_score now s symptoms medications :
  0 <= severity s ->
  score (calculateAsthmaControlScore now (s :: symptoms) medications)
  <= score (calculateAsthmaControlScore now symptoms medications).
Proof.
  intros Hs. rewrite nonempty_result. cbn [score]. rewrite deduction_cons.
  destruct symptoms as [|t rest].
  - change (score (calculateAsthmaControlScore now [] medications)) with 100.
    change (deduction now []) with 0. destruct (inWindow now s); lia.
  - rewrite nonempty_result. cbn [score]. destruct (inWindow now s); lia.
Qed.

Lemma extra_symptom_never_raises_score_witness :
  score (calculateAsthmaControlScore 1700000000000
           [ {| severity := 4; recorded_at := 1700000000000 |};
             {| severity := 2; recorded_at := 1700000000000 |} ] [])
  <= score (calculateAsthmaControlScore 1700000000000
              [ {| severity := 2; recorded_at := 1700000000000 |} ] []).
Proof.
  apply extra_symptom_never_raises_score. cbn. lia.
Defined.

(** An entry older than 7 days changes nothing in the result of a
    sequence that has other entries. *)
Theorem stale_entry_ignored now s symptoms medications :
  symptoms <> [] ->
  7 * msPerDay < now - recorded_at s ->
  calculateAsthmaControlScore now (s :: symptoms) medications
  = calculateAsthmaControlScore now symptoms medications.
Proof.
  intros Hne Hold. destruct symptoms as [|t rest]; [congruence|].
  rewrite !nonempty_result, (deduction_cons now s).
  apply inWindow_false in Hold. rewrite Hold. reflexivity.
Qed.

Lemma stale_entry_ignored_witness :
  let old := {| severity := 5; recorded_at := 1700000000000 - 30 * msPerDay |} in
  let recent := {| severity := 2; recorded_at := 1700000000000 |} in
  calculateAsthmaControlScore 1700000000000 [old; recent] []
  = calculateAsthmaControlScore 1700000000000 [recent] [].
Proof.
  intros old recent. apply stale_entry_ignored.
  - discriminate.
  - vm_compute. reflexivity.
Defined.

End ScoringMore.

(* ------------------------------------------------------------------ *)
(** ** Further properties of the responder and of the chat log *)

Section ChatMore.
Import JsString Chat ChatStore.

Lemma append_assoc_string (a b c : string) : (a ++ b) ++ c = a ++ b ++ c.
Proof. induction a as [|x a IH]; simpl; [reflexivity | now rewrite IH]. Qed.

Lemma includes_extend s k before after :
  includes s k = true -> includes (before ++ s ++ after) k = true.
Proof.
  rewrite !includes_spec. intros (b & a & ->).
  exists (before ++ b), (a ++ after).
  rewrite !append_assoc_string. reflexivity.
Qed.

Lemma emergency_only_by_keyword message :
  simulateAIResponse message = emergencyResponse ->
  includes (toLowerCase message) "emergency"
  || includes (toLowerCase message) "can't breathe"
  || includes (toLowerCase message) "severe" = true.
Proof.
  unfold simulateAIResponse.
  destruct (includes (toLowerCase message) "emergency"
            || includes (toLowerCase message) "can't breathe"
            || includes (toLowerCase message) "severe"); [reflexivity|].
  repeat match goal with
         | |- context [if ?c then _ else _] => destruct c
         end; intros H; vm_compute in H; discriminate.
Qed.

(** The answer depends on the message only up to the case of its
    letters, and a message that gets the emergency response keeps it
    whatever text is put before or after it. *)
Theorem emergency_response_is_sticky message :
  (forall other, toLowerCase other = toLowerCase message ->
                 simulateAIResponse other = simulateAIResponse message) /\
  (simulateAIResponse message = emergencyResponse ->
   forall before after,
     simulateAIResponse (before ++ message ++ after) = emergencyResponse).
Proof.
  split.
  - intros other Hlow. unfold simulateAIResponse. rewrite Hlow. reflexivity.
  - intros Hem before after. apply emergency_only_by_keyword in Hem.
    unfold simulateAIResponse. rewrite !toLowerCase_app.
    apply orb_true_iff in Hem as [Hem|Hem]; [apply orb_true_iff in Hem as [Hem|Hem]|];
      apply (includes_extend _ _ (toLowerCase before) (toLowerCase after)) in Hem;
      rewrite Hem, ?orb_true_r; reflexivity.
Qed.

Lemma emergency_response_is_sticky_witness :
  simulateAIResponse "my INHALER is empty and this is SEVERE, please help"
  = emergencyResponse.
Proof.
  apply (proj2 (emergency_response_is_sticky "this is SEVERE") eq_refl
           "my INHALER is empty and " ", please help").
Defined.

(** [sendChatMessage] never writes a user id: the rows it saves belong to
    nobody, so the history read back for any user stays what it was. It
    appends at most one row, which holds the message and the response. *)
Theorem saved_chat_rows_have_no_owner message context w uid :
  let w' := fst (sendChatMessage message context w) in
  historyOf uid (chat_history w') = historyOf uid (chat_history w) /\
  (chat_history w' = chat_history w \/
   chat_history w'
   = (chat_history w ++ [ {| user_id := None; user_message := message;
                             ai_response := simulateAIResponse message;
                             created_at := clock w |} ])%list).
Proof.
  unfold sendChatMessage, saveChatMessage. cbn [fst].
  destruct (on_insert w); cbn [chat_history]; split; auto.
  unfold historyOf. rewrite filter_app. cbn. now rewrite app_nil_r.
Qed.

End ChatMore.

(* ------------------------------------------------------------------ *)
(** ** Further properties of the freshness cache *)

Section AirQualityMore.
Import JsString AirQuality.

Lemma mostRecent_snoc rows x :
  (forall r, In r rows -> created_at r < created_at x) ->
  mostRecent (rows ++ [x]) = Some x.
Proof.
  intros Hold. unfold mostRecent. rewrite fold_left_app. cbn [fold_left].
  fold (mostRecent rows).
  destruct rows as [|b rest]; [reflexivity|].
  destruct (mostRecent_some (b :: rest)) as (r & -> & Hin & _); [discriminate|].
  unfold newer. apply Hold in Hin. apply Z.ltb_lt in Hin. now rewrite Hin.
Qed.

(** A payload fetched and stored is served from the cache, without a new
    request, to every call for a location with the same lower-case form
    that comes less than 30 minutes after the row was written, provided
    the rows the key already had are older than the new one. *)
Theorem fetched_payload_is_served_later (lowerCase : string -> string) loc loc' w d later :
  fetched (checkAirQuality lowerCase loc w) <> [] ->
  fetchFresh w loc = inr d ->
  insert_ok w = true ->
  (forall r, In r (table w) -> location r = lowerCase loc ->
             created_at r < now w + elapsed w) ->
  lowerCase loc' = lowerCase loc ->
  table later = table_after (checkAirQuality lowerCase loc w) ->
  select_fault later 0 = None ->
  now later - (now w + elapsed w) < windowMs ->
  checkAirQuality lowerCase loc' later
  = {| result := inr d; table_after := table later; fetched := [] |}.
Proof.
  intros Hapi Hfetch Hins Holder Hcase Htable Hok Hsoon.
  rewrite (request_made _ _ _ Hapi) in Htable.
  unfold refetch in Htable. rewrite Hfetch in Htable. cbn [table_after] in Htable.
  unfold cacheAirQuality in Htable. rewrite Hins in Htable.
  set (stored := {| location := lowerCase loc; data := d;
                    created_at := now w + elapsed w |}) in *.
  assert (Hlook : getCachedAirQuality lowerCase later 0 loc' = Some stored).
  { rewrite (lookup_answered _ _ _ _ Hok). unfold rowsFor.
    rewrite Htable, Hcase, filter_app. cbn [filter location stored].
    rewrite String.eqb_refl. apply mostRecent_snoc.
    intros r Hr. apply filter_In in Hr as [Hin Hkey].
    apply String.eqb_eq in Hkey. cbn [created_at]. now apply Holder. }
  unfold checkAirQuality. rewrite Hlook.
  assert (Hfresh : isDataFresh (now later) (created_at stored) 30 = true)
    by (apply fresh_30; exact Hsoon).
  rewrite Hfresh. reflexivity.
Qed.

Lemma fetched_payload_is_served_later_witness :
  let w := {| table := [ {| location := "oslo"; data := "{aqi: 3}";
                            created_at := 1700000000000 - 7200000 |} ];
              now := 1700000000000; elapsed := 400;
              remote := fun _ => FetchResponds true 200 (Some "{aqi: 1}");
              select_fault := fun _ => None; insert_ok := true |} in
  let later := {| table := table_after (checkAirQuality toLowerCase "Oslo" w);
                  now := 1700000000000 + 20 * 60 * 1000; elapsed := 400;
                  remote := fun _ => FetchRejects "offline";
                  select_fault := fun _ => None; insert_ok := true |} in
  checkAirQuality toLowerCase "OSLO" later
  = {| result := inr "{aqi: 1}"; table_after := table later; fetched := [] |}.
Proof.
  intros w later.
  apply (fetched_payload_is_served_later toLowerCase "Oslo" "OSLO" w "{aqi: 1}" later).
  - vm_compute. discriminate.
  - reflexivity.
  - reflexivity.
  - intros r [<-|[]] _. vm_compute. reflexivity.
  - reflexivity.
  - reflexivity.
  - reflexivity.
  - vm_compute. reflexivity.
Defined.

(** A call never removes or changes a row of the cache: the table stays
    as it was, or gains one row, which carries the lower-case form of the
    location (as the platform folds it) and the payload the call returns;
    and a call makes at most one request to the weather API. *)
Theorem cache_only_grows (lowerCase : string -> string) loc w :
  let run := checkAirQuality lowerCase loc w in
  (table_after run = table w \/
   exists d, result run = inr d /\
             table_after run
             = (table w ++ [ {| location := lowerCase loc; data := d;
                                created_at := now w + elapsed w |} ])%list) /\
  (List.length (fetched run) <= 1)%nat.
Proof.
  cbv zeta. unfold checkAirQuality, refetch, cacheAirQuality.
  destruct (getCachedAirQuality lowerCase w 0 loc) as [c|];
    [destruct (isDataFresh (now w) (created_at c) 30)|];
    destruct (fetchFresh w loc) as [e|d];
    destruct (getCachedAirQuality lowerCase w 1 loc);
    destruct (insert_ok w); cbn; (split; [|lia]);
    first [ left; reflexivity | right; eexists; split; reflexivity ].
Qed.

(** A call is rejected only with the error of its own failed fetch, and
    only when the fallback lookup found nothing; the table is then
    unchanged. *)
Theorem rejection_is_the_fetch_error (lowerCase : string -> string) loc w e :
  result (checkAirQuality lowerCase loc w) = inl e ->
  fetchFresh w loc = inl e /\
  getCachedAirQuality lowerCase w 1 loc = None /\
  table_after (checkAirQuality lowerCase loc w) = table w /\
  fetched (checkAirQuality lowerCase loc w) = [requestUrl loc].
Proof.
  unfold checkAirQuality, refetch.
  destruct (getCachedAirQuality lowerCase w 0 loc) as [c|];
    [destruct (isDataFresh (now w) (created_at c) 30)|];
    destruct (fetchFresh w loc) as [e'|d];
    destruct (getCachedAirQuality lowerCase w 1 loc);
    cbn; intros H; try discriminate; injection H as ->; repeat split.
Qed.

Lemma rejection_is_the_fetch_error_witness :
  let w := {| table := []; now := 1700000000000; elapsed := 400;
              remote := fun _ => FetchResponds true 200 None;
              select_fault := fun _ => None; insert_ok := true |} in
  fetchFresh w "Lima" = inl ParseError /\
  getCachedAirQuality toLowerCase w 1 "Lima" = None.
Proof.
  intros w.
  exact (conj (proj1 (rejection_is_the_fetch_error toLowerCase "Lima" w ParseError eq_refl))
              (proj1 (proj2 (rejection_is_the_fetch_error toLowerCase "Lima" w ParseError eq_refl)))).
Defined.

End AirQualityMore.

(* ------------------------------------------------------------------ *)
(** ** Further properties of the record layer *)

Section RecordsMore.
Import Auth Records ReportRequests.

(** Runs the operations down to the answers of the backend and splits on
    each error they test. *)
Ltac layer_cases :=
  cbv [perform run getChatHistory uploadHealthReport getHealthReports
       deleteHealthReport bookAppointment getAppointments cancelAppointment
       rescheduleAppointment logSymptom getSymptomHistory logMedicationUsage
       getMedicationHistory addEmergencyContact getEmergencyContacts exportUserData
       writeOne readMany tryCatch bind requireUser request ret throw orThrow app];
  repeat match goal with
         | |- context [match error ?a with _ => _ end] => destruct (error a) eqn:?
         end.

Lemma truthy_orEmpty j : truthy (orEmpty j) = true.
Proof. unfold orEmpty. destruct (truthy j) eqn:H; [exact H | reflexivity]. Qed.

(** No operation resolves to a result that holds both data and an error,
    and only the five list queries reject. *)
Theorem never_data_with_error op current backend :
  (forall d e, fst (run (perform op current) backend) = Fulfilled (DataError d (Some e)) ->
               d = JNull) /\
  (forall e, fst (run (perform op current) backend) = Rejected e ->
             In op [OpGetHealthReports; OpGetAppointments; OpGetSymptomHistory;
                    OpGetMedicationHistory; OpGetEmergencyContacts]).
Proof.
  split.
  - intros d e. destruct op, current; layer_cases; cbn; intros H; inversion H; reflexivity.
  - intros e. destruct op, current; layer_cases; cbn; intros H; inversion H;
      simpl; tauto.
Qed.

Lemma never_data_with_error_witness :
  let backend := fun _ : Access =>
    {| data := JStr "row"; error := Some (BackendError "42501") |} in
  let alice := {| id := "u-1"; email := "alice@example.org" |} in
  fst (run (perform OpLogSymptom (Some alice)) backend)
  = Fulfilled (DataError JNull (Some (BackendError "42501"))) /\
  JNull = JNull.
Proof.
  intros backend alice.
  assert (H : fst (run (perform OpLogSymptom (Some alice)) backend)
              = Fulfilled (DataError JNull (Some (BackendError "42501"))))
    by reflexivity.
  split; [exact H|].
  exact (proj1 (never_data_with_error OpLogSymptom (Some alice) backend) _ _ H).
Defined.

(** [uploadHealthReport]: when the upload fails nothing else is asked of
    the backend; when the upload succeeds and the insert of the row fails,
    the uploaded file is removed again; either way the result carries the
    error of the step that failed. *)
Theorem failed_insert_discards_upload u backend e :
  (error (backend (upload u)) = Some e ->
   run (uploadHealthReport (Some u)) backend
   = (Fulfilled (DataError JNull (Some e)), [upload u])) /\
  (error (backend (upload u)) = None ->
   error (backend (onReports Insert u)) = Some e ->
   run (uploadHealthReport (Some u)) backend
   = (Fulfilled (DataError JNull (Some e)),
      [upload u; onReports Insert u; discard u])).
Proof.
  split.
  - intros Hup. unfold upload in *.
    cbv [run uploadHealthReport tryCatch bind requireUser request ret throw orThrow app].
    rewrite Hup. reflexivity.
  - intros Hup Hins. unfold upload, onReports, discard in *.
    cbv [run uploadHealthReport tryCatch bind requireUser request ret throw orThrow app].
    rewrite Hup, Hins. reflexivity.
Qed.

Lemma failed_insert_discards_upload_witness :
  let alice := {| id := "u-1"; email := "alice@example.org" |} in
  let backend := fun a : Access =>
    match verb a with
    | Insert => {| data := JNull; error := Some (BackendError "23514") |}
    | _ => {| data := JStr "ok"; error := None |}
    end in
  snd (run (uploadHealthReport (Some alice)) backend)
  = [upload alice; onReports Insert alice; discard alice].
Proof.
  intros alice backend.
  exact (f_equal snd
           (proj2 (failed_insert_discards_upload alice backend (BackendError "23514"))
                  eq_refl eq_refl)).
Defined.

(** [deleteHealthReport]: when the report cannot be read nothing is
    removed; once it is read, the file is removed from storage and the
    row deleted whatever the storage answers, and the result is the
    answer of the row deletion alone. *)
Theorem delete_goes_on_after_storage_failure u backend :
  (forall e, error (backend (onReports Select u)) = Some e ->
     run (deleteHealthReport (Some u)) backend
     = (Fulfilled (ErrorOnly (Some e)), [onReports Select u])) /\
  (error (backend (onReports Select u)) = None ->
     run (deleteHealthReport (Some u)) backend
     = (Fulfilled (ErrorOnly (error (backend (onReports Delete u)))),
        [onReports Select u; discard u; onReports Delete u])).
Proof.
  unfold onReports, discard. split.
  - intros e Hsel.
    cbv [run deleteHealthReport tryCatch bind requireUser request ret throw orThrow app].
    rewrite Hsel. reflexivity.
  - intros Hsel.
    cbv [run deleteHealthReport tryCatch bind requireUser request ret throw orThrow app].
    rewrite Hsel.
    destruct (error (backend {| verb := Delete; store := HEALTH_REPORTS; owner := id u |}));
      reflexivity.
Qed.

Lemma delete_goes_on_after_storage_failure_witness :
  let alice := {| id := "u-1"; email := "alice@example.org" |} in
  let backend := fun a : Access =>
    match verb a with
    | Remove => {| data := JNull; error := Some (BackendError "storage") |}
    | _ => {| data := JStr "ok"; error := None |}
    end in
  run (deleteHealthReport (Some alice)) backend
  = (Fulfilled (ErrorOnly None),
     [onReports Select alice; discard alice; onReports Delete alice]).
Proof.
  intros alice backend.
  exact (proj2 (delete_goes_on_after_storage_failure alice backend) eq_refl).
Defined.

(** [exportUserData] with a user always makes its seven queries and
    resolves to a backup with no error, whatever the queries answer: the
    error of a query is never looked at. *)
Theorem export_ignores_query_errors exportDate u backend :
  exists backup,
    fst (run (exportUserData exportDate (Some u)) backend)
    = Fulfilled (DataError backup None) /\
    truthy backup = true /\
    map store (snd (run (exportUserData exportDate (Some u)) backend))
    = [USER_PROFILES; HEALTH_REPORTS; APPOINTMENTS; SYMPTOMS; MEDICATIONS;
       EMERGENCY_CONTACTS; CHAT_HISTORY] /\
    Forall (fun a => verb a = Select)
           (snd (run (exportUserData exportDate (Some u)) backend)).
Proof.
  eexists. cbv [run exportUserData tryCatch bind requireUser request ret throw app].
  cbn [fst snd map store]. repeat split. repeat constructor.
Qed.

(** [getChatHistory] never rejects and never resolves to a falsy value,
    with or without a user and whatever the backend answers; it asks the
    backend at most once. *)
Theorem getChatHistory_always_resolves current backend :
  exists rows,
    fst (run (getChatHistory current) backend) = Fulfilled (Plain rows) /\
    truthy rows = true /\
    (List.length (snd (run (getChatHistory current) backend)) <= 1)%nat.
Proof.
  destruct current as [u|].
  - cbv [run getChatHistory tryCatch bind request ret throw orThrow app].
    destruct (error (backend _)).
    + exists (JArr []). repeat split. cbn. lia.
    + eexists. cbn [fst snd]. split; [reflexivity|]. split; [apply truthy_orEmpty|].
      cbn. lia.
  - exists (JArr []). repeat split. cbn. lia.
Qed.

End RecordsMore.

(* ------------------------------------------------------------------ *)
(** ** Properties of sign-up and of the profile operations *)

Section AuthProfileFacts.
Import Auth Records AuthProfile.

Lemma createUserProfile_settles u backend log :
  createUserProfile u backend log
  = (Fulfilled tt,
     (log ++ [ {| verb := Insert; store := USER_PROFILES; owner := id u |} ])%list).
Proof.
  cbv [createUserProfile tryCatch bind request ret throw].
  destruct (error (backend _)) as [e|]; [|reflexivity].
  destruct (codeIsNot e "23505"); reflexivity.
Qed.

(** The result of [signUp] is decided by the answer of the identity
    provider alone: whatever the insert of the profile row does, it is the
    provider's data with no error, or the provider's error with no data.
    The profile row is asked for exactly when the provider reports no
    error and a user, once, and for that user. *)
Theorem signUp_survives_profile_failure answer backend :
  fst (run (signUp answer) backend)
  = Fulfilled (match auth_error answer with
               | Some e => DataError JNull (Some e)
               | None => DataError (auth_data answer) None
               end) /\
  snd (run (signUp answer) backend)
  = match auth_error answer, auth_user answer with
    | None, Some u => [ {| verb := Insert; store := USER_PROFILES; owner := id u |} ]
    | _, _ => []
    end.
Proof.
  unfold run, signUp, tryCatch, bind.
  destruct (auth_error answer) as [e|]; [split; reflexivity|].
  destruct (auth_user answer) as [u|]; [|split; reflexivity].
  rewrite createUserProfile_settles. split; reflexivity.
Qed.

(** Without a current user the two profile operations leave the backend
    alone: [getUserProfile] resolves to null and [updateUserProfile]
    rejects with the Unauthenticated error. With a user, [getUserProfile]
    still never rejects: every failure of the query becomes null. *)
Theorem profile_operations_without_user m backend :
  (currentUser m = None ->
     run (getUserProfile m) backend = (Fulfilled JNull, []) /\
     run (updateUserProfile m) backend = (Rejected notAuthenticated, [])) /\
  (exists profile, fst (run (getUserProfile m) backend) = Fulfilled profile) /\
  (forall e, error (backend {| verb := Select; store := USER_PROFILES;
                               owner := match currentUser m with
                                        | Some u => id u
                                        | None => ""
                                        end |}) = Some e ->
             codeIsNot e "PGRST116" = true ->
             fst (run (getUserProfile m) backend) = Fulfilled JNull).
Proof.
  split; [|split].
  - intros Hnone. unfold run, getUserProfile, updateUserProfile. rewrite Hnone.
    split; reflexivity.
  - unfold run, getUserProfile. destruct (currentUser m) as [u|]; [|now exists JNull].
    cbv [tryCatch bind request ret throw].
    destruct (error (backend _)) as [e|]; [destruct (codeIsNot e "PGRST116")|];
      eexists; reflexivity.
  - intros e Herr Hcode. unfold run, getUserProfile.
    destruct (currentUser m) as [u|]; [|reflexivity].
    cbv [tryCatch bind request ret throw]. rewrite Herr, Hcode. reflexivity.
Qed.

Lemma profile_operations_without_user_witness :
  let backend := fun _ : Access => {| data := JStr "row"; error := None |} in
  run (getUserProfile constructed) backend = (Fulfilled JNull, []) /\
  run (updateUserProfile constructed) backend = (Rejected notAuthenticated, []).
Proof.
  intros backend.
  exact (proj1 (profile_operations_without_user constructed backend) eq_refl).
Defined.

End AuthProfileFacts.

(* ------------------------------------------------------------------ *)
(** ** Further properties of the auth façade *)

Section AuthMore.
Import JsString Auth AuthGuards.

Lemma registrations_removeFirst callback cbs :
  registrations callback (removeFirst callback cbs)
  = pred (registrations callback cbs).
Proof.
  unfold registrations.
  induction cbs as [|c cbs IH]; [reflexivity|].
  cbn [removeFirst filter]. unfold same_callback.
  destruct (cb_id c =? cb_id callback)%nat eqn:Hc.
  - reflexivity.
  - cbn [filter]. rewrite Hc. exact IH.
Qed.

Lemma registrations_removeFirst_other callback other cbs :
  cb_id other <> cb_id callback ->
  registrations other (removeFirst callback cbs) = registrations other cbs.
Proof.
  intros Hne. unfold registrations.
  induction cbs as [|c cbs IH]; [reflexivity|].
  cbn [removeFirst filter]. unfold same_callback.
  destruct (cb_id c =? cb_id callback)%nat eqn:Hc.
  - apply Nat.eqb_eq in Hc.
    assert (Ho : (cb_id c =? cb_id other)%nat = false)
      by (apply Nat.eqb_neq; congruence).
    now rewrite Ho.
  - cbn [filter]. destruct (cb_id c =? cb_id other)%nat; cbn [Datatypes.length];
      now rewrite IH.
Qed.

(** [removeAuthStateCallback] takes away one registration of the observer
    and none of any other: at the next transition the observer is called
    one time less (not at all if it was registered once) and every other
    observer exactly as often as before. *)
Theorem removed_observer_is_not_notified callback m navbar event session :
  listening m = true ->
  let m' := removeAuthStateCallback callback m in
  invocations callback (snd (transition navbar event session m'))
  = repeat (sessionUser session, event)
           (pred (registrations callback (authCallbacks m))) /\
  (forall other, cb_id other <> cb_id callback ->
     invocations other (snd (transition navbar event session m'))
     = invocations other (snd (transition navbar event session m))).
Proof.
  intros Hlisten m'. split.
  - rewrite transition_notifies by exact Hlisten.
    cbn [authCallbacks m' removeAuthStateCallback].
    now rewrite registrations_removeFirst.
  - intros other Hne. rewrite !transition_notifies by exact Hlisten.
    cbn [authCallbacks m' removeAuthStateCallback].
    now rewrite registrations_removeFirst_other.
Qed.

Lemma removed_observer_is_not_notified_witness :
  let observer := {| cb_id := 7; cb_throws := false |} in
  let m := fst (fst (onAuthStateChange observer
                       (init (GetSessionResolves None None) constructed))) in
  invocations observer
    (snd (transition false "SIGNED_OUT" None (removeAuthStateCallback observer m)))
  = [].
Proof.
  intros observer m.
  exact (proj1 (removed_observer_is_not_notified observer m false "SIGNED_OUT" None
                  eq_refl)).
Defined.

(** An observer registered before [init] has finished is not called at
    registration, and the registration does not throw: the current state
    is not replayed to it. Once [init] has finished, every transition the
    provider delivers, whatever its event, calls it once for each of its
    registrations. *)
Theorem early_observer_gets_no_replay callback m :
  initialized m = false ->
  let registered := onAuthStateChange callback m in
  snd (fst registered) = [] /\
  snd registered = false /\
  forall session error navbar event next,
    invocations callback
      (snd (transition navbar event next
              (init (GetSessionResolves session error) (fst (fst registered)))))
    = repeat (sessionUser next, event) (S (registrations callback (authCallbacks m))).
Proof.
  intros Hinit registered. subst registered. unfold onAuthStateChange.
  cbn [initialized]. rewrite Hinit. cbn [fst snd]. repeat split.
  intros session error navbar event next.
  rewrite transition_notifies by reflexivity.
  cbn [init authCallbacks]. rewrite registrations_app.
  unfold registrations at 2. cbn. rewrite Nat.eqb_refl. cbn.
  now rewrite Nat.add_1_r.
Qed.

Lemma early_observer_gets_no_replay_witness :
  let observer := {| cb_id := 3; cb_throws := true |} in
  snd (fst (onAuthStateChange observer constructed)) = [] /\
  snd (onAuthStateChange observer constructed) = false.
Proof.
  intros observer.
  exact (conj (proj1 (early_observer_gets_no_replay observer constructed eq_refl))
              (proj1 (proj2 (early_observer_gets_no_replay observer constructed eq_refl)))).
Defined.

End AuthMore.

Section AuthGuardFacts.
Import JsString Auth AuthGuards AuthRuns.

Lemma subscribe_fields callback m :
  let m' := fst (fst (onAuthStateChange callback m)) in
  listening m' = listening m /\ initialized m' = initialized m /\
  currentUser m' = currentUser m /\
  authCallbacks m' = (authCallbacks m ++ [callback])%list.
Proof.
  unfold onAuthStateChange. cbn [initialized].
  destruct (initialized m); cbn; repeat split; reflexivity.
Qed.

Lemma subscribeAll_fields cbs : forall m,
  listening (subscribeAll cbs m) = listening m /\
  initialized (subscribeAll cbs m) = initialized m /\
  currentUser (subscribeAll cbs m) = currentUser m /\
  authCallbacks (subscribeAll cbs m) = (authCallbacks m ++ cbs)%list.
Proof.
  unfold subscribeAll.
  induction cbs as [|cb cbs IH]; intros m; cbn [fold_left].
  - rewrite app_nil_r. repeat split; reflexivity.
  - destruct (subscribe_fields cb m) as (Hl & Hi & Hu & Hc).
    destruct (IH (fst (fst (onAuthStateChange cb m)))) as (Hl' & Hi' & Hu' & Hc').
    rewrite Hl', Hi', Hu', Hc', Hl, Hi, Hu, Hc, <- app_assoc.
    repeat split; reflexivity.
Qed.

(** When [getSession] rejects, [init] gives up before it registers its
    listener: the manager never becomes initialized, keeps no user, and no
    transition of the provider reaches the observers, however many are
    registered. *)
Theorem rejected_getSession_silences_observers cbs navbar event session :
  let m := subscribeAll cbs (init GetSessionRejects constructed) in
  initialized m = false /\
  currentUser m = None /\
  authCallbacks m = cbs /\
  transition navbar event session m = (m, []).
Proof.
  intros m. subst m.
  destruct (subscribeAll_fields cbs (init GetSessionRejects constructed))
    as (Hl & Hi & Hu & Hc).
  repeat split; try assumption.
  unfold transition. rewrite Hl. reflexivity.
Qed.

Lemma anyChar_app p s t : anyChar p (s ++ t) = anyChar p s || anyChar p t.
Proof.
  induction s as [|c s IH]; simpl; [reflexivity|]. now rewrite IH, orb_assoc.
Qed.

Lemma encoded_char_is_safe c :
  anyChar splitsQuery (encodeURIComponent (String c "")) = false.
Proof. destruct c as [[] [] [] [] [] [] [] []]; vm_compute; reflexivity. Qed.

Lemma encodeURIComponent_cons c rest :
  encodeURIComponent (String c rest)
  = encodeURIComponent (String c "") ++ encodeURIComponent rest.
Proof. cbn [encodeURIComponent]. destruct (uri_unreserved c); reflexivity. Qed.

Lemma encoded_is_safe s : anyChar splitsQuery (encodeURIComponent s) = false.
Proof.
  induction s as [|c s IH]; [reflexivity|].
  now rewrite encodeURIComponent_cons, anyChar_app, encoded_char_is_safe, IH.
Qed.

(** [requireAuth] answers whether a user is signed in. It navigates only
    when none is, and then to [login.html] with one query parameter: the
    encoded return URL holds none of the characters that end or split a
    parameter, so the page asked for cannot add parameters of its own. *)
Theorem requireAuth_redirects_safely redirectUrl href m :
  fst (requireAuth redirectUrl href m) = isAuthenticated m /\
  (isAuthenticated m = true -> snd (requireAuth redirectUrl href m) = None) /\
  (isAuthenticated m = false ->
   exists target,
     snd (requireAuth redirectUrl href m) = Some ("login.html?redirect=" ++ target) /\
     target = encodeURIComponent (returnUrl redirectUrl href) /\
     anyChar splitsQuery target = false).
Proof.
  unfold requireAuth. destruct (isAuthenticated m); cbn; repeat split;
    intros; try discriminate.
  eexists. split; [reflexivity|]. split; [reflexivity | apply encoded_is_safe].
Qed.

Lemma requireAuth_redirects_safely_witness :
  snd (requireAuth (Some "https://app.example/reports?tab=1&x=2#top") "index.html"
         constructed)
  = Some "login.html?redirect=https%3A%2F%2Fapp.example%2Freports%3Ftab%3D1%26x%3D2%23top".
Proof.
  destruct (proj2 (proj2 (requireAuth_redirects_safely
              (Some "https://app.example/reports?tab=1&x=2#top") "index.html"
              constructed)) eq_refl) as (target & Hsnd & Htarget & _).
  rewrite Hsnd, Htarget. reflexivity.
Defined.

End AuthGuardFacts.

(* ------------------------------------------------------------------ *)
(** ** Properties of the utility functions *)

Section UtilityFacts.
Import Utilities.

Lemma sameType_eq a b : sameType a b = true <-> a = b.
Proof. destruct a, b; simpl; split; intros H; try reflexivity; discriminate. Qed.

Lemma sameType_refl a : sameType a a = true.
Proof. now apply sameType_eq. Qed.

Lemma getCount_setCount t k v counts :
  getCount t (setCount k v counts)
  = if sameType k t then Some v else getCount t counts.
Proof.
  induction counts as [|[k' n] rest IH]; simpl.
  - reflexivity.
  - destruct (sameType k' k) eqn:Hk; simpl.
    + apply sameType_eq in Hk. subst k'. destruct (sameType k t); reflexivity.
    + destruct (sameType k' t) eqn:Ht; [|exact IH].
      apply sameType_eq in Ht. subst k'.
      destruct (sameType k t) eqn:Hkt; [|reflexivity].
      apply sameType_eq in Hkt. subst k. rewrite sameType_refl in Hk. discriminate.
Qed.

Lemma sumCounts_setCount k v counts :
  sumCounts (setCount k v counts) = sumCounts counts - orZero (getCount k counts) + v.
Proof.
  unfold sumCounts. induction counts as [|[k' n] rest IH]; simpl.
  - lia.
  - destruct (sameType k' k); simpl; [lia | rewrite IH; lia].
Qed.

Lemma reportsOfType_cons t r rest :
  reportsOfType t (r :: rest)
  = (if sameType (document_type r) t then 1 else 0) + reportsOfType t rest.
Proof.
  unfold reportsOfType. cbn [filter].
  destruct (sameType (document_type r) t); cbn [Datatypes.length]; lia.
Qed.

Lemma reportsOfType_nonneg t reports : 0 <= reportsOfType t reports.
Proof. unfold reportsOfType. lia. Qed.

Lemma byType_countReport summary r t :
  getCount t (byType (countReport summary r))
  = if sameType (document_type r) t
    then Some (orZero (getCount t (byType summary)) + 1)
    else getCount t (byType summary).
Proof.
  cbn [countReport byType]. rewrite getCount_setCount.
  destruct (sameType (document_type r) t) eqn:Hrt; [|reflexivity].
  apply sameType_eq in Hrt. now subst t.
Qed.

(** The fields of the summary after the loop, from the fields before it. *)
Lemma summary_after reports : forall summary,
  let final := fold_left countReport reports summary in
  totalReports final = totalReports summary /\
  recentUploads final = recentUploads summary /\
  storageUsed final
  = storageUsed summary + fold_right (fun r acc => orZero (file_size r) + acc) 0 reports /\
  sumCounts (byType final) = sumCounts (byType summary) + Z.of_nat (List.length reports) /\
  (forall t, orZero (getCount t (byType final))
             = orZero (getCount t (byType summary)) + reportsOfType t reports) /\
  (forall t, getCount t (byType final) = None <->
             getCount t (byType summary) = None /\ reportsOfType t reports = 0).
Proof.
  induction reports as [|r rest IH]; intros summary; cbn [fold_left]; cbn zeta.
  - split; [reflexivity|]. split; [reflexivity|]. split; [cbn; lia|].
    split; [cbn; lia|]. split.
    + intros t. unfold reportsOfType. cbn. lia.
    + intros t. unfold reportsOfType. cbn. tauto.
  - destruct (IH (countReport summary r)) as (Ht & Hr & Hs & Hc & Hg & Hn).
    cbn zeta in *.
    split; [rewrite Ht; reflexivity|].
    split; [rewrite Hr; reflexivity|].
    split; [rewrite Hs; cbn [countReport storageUsed fold_right]; lia|].
    split.
    { rewrite Hc. cbn [countReport byType]. rewrite sumCounts_setCount.
      cbn [Datatypes.length]. rewrite Nat2Z.inj_succ. lia. }
    split.
    + intros t. rewrite Hg, byType_countReport, reportsOfType_cons.
      destruct (sameType (document_type r) t); cbn [orZero]; lia.
    + intros t. rewrite Hn, byType_countReport, reportsOfType_cons.
      pose proof (reportsOfType_nonneg t rest).
      destruct (sameType (document_type r) t).
      * split; [intros [Hx _]; discriminate | intros [_ Hx]; lia].
      * split; intros [H1 H2]; split; auto; lia.
Qed.

(** In the summary, the count of a type is the number of reports of that
    type, a type has an entry exactly when a report has it, and the counts
    add up to [totalReports], the number of reports. *)
Theorem summary_counts_add_up reports :
  let summary := generateHealthReportSummary reports in
  totalReports summary = Z.of_nat (List.length reports) /\
  sumCounts (byType summary) = totalReports summary /\
  (forall t, orZero (getCount t (byType summary)) = reportsOfType t reports) /\
  (forall t, getCount t (byType summary) = None <-> reportsOfType t reports = 0).
Proof.
  unfold generateHealthReportSummary.
  destruct (summary_after reports
              {| totalReports := Z.of_nat (List.length reports); byType := [];
                 recentUploads := firstn 5 reports; storageUsed := 0 |})
    as (Ht & Hr & Hs & Hc & Hg & Hn).
  cbn zeta in *. cbn [totalReports byType] in *.
  split; [exact Ht|]. split; [rewrite Hc, Ht; reflexivity|]. split.
  - intros t. rewrite Hg. reflexivity.
  - intros t. rewrite Hn. cbn. tauto.
Qed.

Lemma summary_counts_add_up_witness :
  let reports := [ {| filename := "a.pdf"; document_type := XRay; file_size := Some 10 |};
                   {| filename := "b.pdf"; document_type := Insurance; file_size := None |};
                   {| filename := "c.pdf"; document_type := XRay; file_size := Some 5 |} ] in
  reportsOfType Prescription reports = 0 /\
  getCount Prescription (byType (generateHealthReportSummary reports)) = None.
Proof.
  intros reports.
  assert (H : reportsOfType Prescription reports = 0) by reflexivity.
  split; [exact H|].
  exact (proj2 (proj2 (proj2 (proj2 (summary_counts_add_up reports))) Prescription) H).
Defined.



End UtilityFacts.

Section BadgeAndReminderFacts.
Import Utilities.

Lemma Qle_bool_mono a b k :
  (a <= b)%Q -> Qle_bool b k = true -> Qle_bool a k = true.
Proof.
  intros Hab Hb. apply Qle_bool_iff. apply Qle_bool_iff in Hb.
  eapply Qle_trans; eassumption.
Qed.

(** A higher index never gets a milder colour; an index of at most 1 is
    green and one above 4 is purple. *)
Theorem air_quality_colour_is_monotone a b :
  (a <= b)%Q ->
  (alarm (color (getAirQualityColor a)) <= alarm (color (getAirQualityColor b)))%nat.
Proof.
  intros Hab. unfold getAirQualityColor.
  destruct (Qle_bool b (inject_Z 1)) eqn:B1;
    [rewrite (Qle_bool_mono _ _ _ Hab B1); cbn; lia|].
  destruct (Qle_bool b (inject_Z 2)) eqn:B2;
    [rewrite (Qle_bool_mono _ _ _ Hab B2);
     destruct (Qle_bool a (inject_Z 1)); cbn; lia|].
  destruct (Qle_bool b (inject_Z 3)) eqn:B3;
    [rewrite (Qle_bool_mono _ _ _ Hab B3);
     destruct (Qle_bool a (inject_Z 1)); destruct (Qle_bool a (inject_Z 2)); cbn; lia|].
  destruct (Qle_bool b (inject_Z 4)) eqn:B4;
    [rewrite (Qle_bool_mono _ _ _ Hab B4);
     destruct (Qle_bool a (inject_Z 1)); destruct (Qle_bool a (inject_Z 2));
     destruct (Qle_bool a (inject_Z 3)); cbn; lia|].
  destruct (Qle_bool a (inject_Z 1)); destruct (Qle_bool a (inject_Z 2));
    destruct (Qle_bool a (inject_Z 3)); destruct (Qle_bool a (inject_Z 4)); cbn; lia.
Qed.

Lemma air_quality_colour_is_monotone_witness :
  (alarm (color (getAirQualityColor (5 # 2)))
   <= alarm (color (getAirQualityColor (inject_Z 6))))%nat.
Proof.
  apply air_quality_colour_is_monotone. vm_compute. discriminate.
Defined.

Lemma hours_bounds diff lo hi :
  (lo <= diff / msPerHour <= hi <-> lo * msPerHour <= diff < (hi + 1) * msPerHour).
Proof.
  unfold msPerHour.
  pose proof (Z.div_mod diff (1000 * 60 * 60) ltac:(lia)) as Hdm.
  pose proof (Z.mod_pos_bound diff (1000 * 60 * 60) ltac:(lia)) as Hmod.
  lia.
Qed.

Lemma daysAhead_upcoming h :
  24 < h <= 72 -> daysAhead h = (if h <=? 48 then 2 else 3).
Proof.
  intros Hh. unfold daysAhead.
  pose proof (Z.div_mod (- h) 24 ltac:(lia)) as Hdm.
  pose proof (Z.mod_pos_bound (- h) 24 ltac:(lia)) as Hmod.
  destruct (h <=? 48) eqn:H48; [apply Z.leb_le in H48 | apply Z.leb_gt in H48]; lia.
Qed.

(** For an appointment with a valid date: the reminder is urgent exactly
    when the appointment starts between 1 hour (included) and 25 hours
    (excluded) from now, upcoming exactly between 25 and 73 hours, and
    absent otherwise, in particular for an appointment less than an hour
    away; the upcoming message announces 2 days up to 49 hours ahead and 3
    days beyond; the message is empty exactly when there is no reminder. *)
Theorem reminder_windows now appointment start :
  starts_at appointment = Some start ->
  let r := generateAppointmentReminder now appointment in
  (type r = Urgent <-> msPerHour <= start - now < 25 * msPerHour) /\
  (type r = Upcoming <-> 25 * msPerHour <= start - now < 73 * msPerHour) /\
  (type r = Upcoming ->
   message r = "Upcoming appointment: You have an appointment with "
                 ++ doctorOf appointment ++ " in "
                 ++ (if start - now <? 49 * msPerHour then "2" else "3") ++ " days") /\
  (type r = NoReminder <-> message r = "").
Proof.
  intros Hstart r. subst r. unfold generateAppointmentReminder. rewrite Hstart.
  set (h := (start - now) / msPerHour).
  pose proof (hours_bounds (start - now) 1 24) as Hu. fold h in Hu.
  pose proof (hours_bounds (start - now) 25 72) as Hp. fold h in Hp.
  pose proof (hours_bounds (start - now) 25 48) as H2. fold h in H2.
  destruct ((h <=? 24) && (h >? 0)) eqn:Eu.
  - apply andb_true_iff in Eu as [E1 E2]. apply Z.leb_le in E1.
    rewrite Z.gtb_ltb in E2. apply Z.ltb_lt in E2.
    cbn [type message]. repeat split; intros; try discriminate; try lia.
  - assert (Hnu : ~ (1 <= h <= 24)).
    { intros [A B]. apply andb_false_iff in Eu as [E|E].
      - apply Z.leb_gt in E. lia.
      - rewrite Z.gtb_ltb in E. apply Z.ltb_ge in E. lia. }
    destruct ((h <=? 72) && (h >? 24)) eqn:Ep.
    + apply andb_true_iff in Ep as [E1 E2]. apply Z.leb_le in E1.
      rewrite Z.gtb_ltb in E2. apply Z.ltb_lt in E2.
      cbn [type message]. repeat split; intros; try discriminate; try lia.
      rewrite daysAhead_upcoming by lia.
      destruct (h <=? 48) eqn:E48.
      * apply Z.leb_le in E48.
        assert (Hlt : (start - now <? 49 * msPerHour) = true) by (apply Z.ltb_lt; lia).
        rewrite Hlt. reflexivity.
      * apply Z.leb_gt in E48.
        assert (Hge : (start - now <? 49 * msPerHour) = false) by (apply Z.ltb_ge; lia).
        rewrite Hge. reflexivity.
    + assert (Hnp : ~ (25 <= h <= 72)).
      { intros [A B]. apply andb_false_iff in Ep as [E|E].
        - apply Z.leb_gt in E. lia.
        - rewrite Z.gtb_ltb in E. apply Z.ltb_ge in E. lia. }
      cbn [type message]. repeat split; intros; try discriminate; try reflexivity; lia.
Qed.

Lemma reminder_windows_witness :
  let soon := {| starts_at := Some (1700000000000 + 30 * 60 * 1000);
                 appointment_time := "09:30"; doctor_name := None |} in
  let inTwoDays := {| starts_at := Some (1700000000000 + 40 * msPerHour);
                      appointment_time := "09:30"; doctor_name := Some "Dr. Rao" |} in
  message (generateAppointmentReminder 1700000000000 soon) = "" /\
  message (generateAppointmentReminder 1700000000000 inTwoDays)
  = "Upcoming appointment: You have an appointment with Dr. Rao in 2 days".
Proof.
  intros soon inTwoDays. split.
  - apply (proj2 (proj2 (proj2
             (reminder_windows 1700000000000 soon _ eq_refl)))).
    reflexivity.
  - apply (proj1 (proj2 (proj2
             (reminder_windows 1700000000000 inTwoDays _ eq_refl)))).
    reflexivity.
Defined.

End BadgeAndReminderFacts.

(* ------------------------------------------------------------------ *)
(** ** The validators accept the language of their expressions *)

Section ValidatorFacts.
Import Validators.

Lemma matches_nil_nullable r : Matches r [] -> nullable r = true.
Proof.
  intros H. remember (@nil N) as s eqn:Hs.
  induction H as [|p c Hp|r1 r2 s1 s2 H1 IH1 H2 IH2|r1 r2 s H IH|r1 r2 s H IH
                  |r|r s1 s2 H1 IH1 H2 IH2]; simpl; try reflexivity.
  - discriminate.
  - apply app_eq_nil in Hs as [-> ->]. now rewrite IH1, IH2.
  - now rewrite IH.
  - rewrite IH by assumption. apply orb_true_r.
Qed.

Lemma nullable_matches_nil r : nullable r = true -> Matches r [].
Proof.
  induction r as [| |p|r1 IH1 r2 IH2|r1 IH1 r2 IH2|r IH]; simpl; intros H;
    try discriminate.
  - constructor.
  - apply andb_true_iff in H as [H1 H2].
    change (@nil N) with (@nil N ++ [])%list. constructor; auto.
  - apply orb_true_iff in H as [H|H]; [apply MAltL | apply MAltR]; auto.
  - constructor.
Qed.

Lemma deriv_sound c r : forall s, Matches (deriv c r) s -> Matches r (c :: s).
Proof.
  induction r as [| |p|r1 IH1 r2 IH2|r1 IH1 r2 IH2|r IH]; simpl; intros s H.
  - inversion H.
  - inversion H.
  - destruct (p c) eqn:Hp; inversion H; subst. now constructor.
  - destruct (nullable r1) eqn:Hn.
    + inversion H as [| | | ? ? ? H' | ? ? ? H' | |]; subst.
      * inversion H' as [| |? ? s1 s2 Ha Hb| | | |]; subst.
        change (c :: s1 ++ s2)%list with ((c :: s1) ++ s2)%list.
        constructor; auto.
      * change (c :: s) with ([] ++ c :: s)%list.
        constructor; [now apply nullable_matches_nil | auto].
    + inversion H as [| |? ? s1 s2 Ha Hb| | | |]; subst.
      change (c :: s1 ++ s2)%list with ((c :: s1) ++ s2)%list.
      constructor; auto.
  - inversion H; subst; [apply MAltL | apply MAltR]; auto.
  - inversion H as [| |? ? s1 s2 Ha Hb| | | |]; subst.
    change (c :: s1 ++ s2)%list with ((c :: s1) ++ s2)%list.
    constructor; auto.
Qed.

Lemma deriv_complete r t :
  Matches r t -> forall c s, t = c :: s -> Matches (deriv c r) s.
Proof.
  induction 1 as [|p d Hp|r1 r2 s1 s2 H1 IH1 H2 IH2|r1 r2 s' H IH|r1 r2 s' H IH
                  |r|r s1 s2 H1 IH1 H2 IH2]; intros c s Heq; simpl.
  - discriminate.
  - injection Heq as -> <-. rewrite Hp. constructor.
  - destruct s1 as [|d s1'].
    + simpl in Heq. subst s2. rewrite (matches_nil_nullable _ H1).
      apply MAltR. now apply IH2.
    + simpl in Heq. injection Heq as -> <-.
      destruct (nullable r1); [apply MAltL|]; constructor; auto.
  - apply MAltL. auto.
  - apply MAltR. auto.
  - discriminate.
  - destruct s1 as [|d s1'].
    + simpl in Heq. now apply IH2.
    + simpl in Heq. injection Heq as -> <-. constructor; auto.
Qed.

(** [test] decides the language of the expression. *)
Lemma test_spec text : forall r, test r text = true <-> Matches r text.
Proof.
  unfold test. induction text as [|c rest IH]; intros r; cbn [fold_left].
  - split; [apply nullable_matches_nil | apply matches_nil_nullable].
  - rewrite IH. split.
    + apply deriv_sound.
    + intros H. now apply (deriv_complete _ _ H).
Qed.

Lemma star_class p s : Matches (Star (Class p)) s <-> allIn p s.
Proof.
  split.
  - intros H. remember (Star (Class p)) as r eqn:Hr.
    induction H as [| | | | |r'|r' s1 s2 H1 _ H2 IH2]; try discriminate.
    + constructor.
    + injection Hr as ->. inversion H1; subst. constructor; auto.
      now apply IH2.
  - induction 1 as [|c s Hc _ IH].
    + constructor.
    + change (c :: s) with ([c] ++ s)%list. constructor; [now constructor | exact IH].
Qed.

Lemma atLeast_class p n : forall s,
  Matches (AtLeast n (Class p)) s <-> (n <= List.length s)%nat /\ allIn p s.
Proof.
  induction n as [|n IH]; intros s; cbn [AtLeast].
  - rewrite star_class. split; [intros H; split; [lia | exact H] | tauto].
  - split.
    + intros H. inversion H as [| |? ? s1 s2 Ha Hb| | | |]; subst.
      inversion Ha; subst. apply IH in Hb as [Hlen Hall]. split.
      * cbn. lia.
      * constructor; assumption.
    + intros [Hlen Hall]. destruct s as [|c s]; [cbn in Hlen; lia|].
      inversion Hall; subst.
      change (c :: s) with ([c] ++ s)%list. constructor; [now constructor|].
      apply IH. split; [cbn in Hlen; lia | assumption].
Qed.

Lemma plus_class p s :
  Matches (Plus (Class p)) s <-> s <> [] /\ allIn p s.
Proof.
  unfold Plus. split.
  - intros H. inversion H as [| |? ? s1 s2 Ha Hb| | | |]; subst.
    inversion Ha; subst. apply star_class in Hb. split; [discriminate|].
    constructor; assumption.
  - intros [Hne Hall]. destruct s as [|c s]; [congruence|]. inversion Hall; subst.
    change (c :: s) with ([c] ++ s)%list. constructor; [now constructor|].
    now apply star_class.
Qed.

(** A phone number is accepted exactly when it is, after an optional
    leading [+], a run of at least ten digits, white-space characters,
    hyphens and parentheses, and nothing else. *)
Theorem phone_numbers_accepted phone :
  isValidPhoneNumber phone = true <->
  exists body,
    (phone = body \/ phone = N_of_ascii "+" :: body) /\
    (10 <= List.length body)%nat /\ allIn phoneChar body.
Proof.
  unfold isValidPhoneNumber, phoneRegex. rewrite test_spec. split.
  - intros H. inversion H as [| |? ? s1 s2 Ha Hb| | | |]; subst.
    apply (atLeast_class phoneChar 10) in Hb. exists s2. split; [|exact Hb].
    inversion Ha as [| | |? ? ? Hx|? ? ? Hx| |]; subst.
    + inversion Hx; subst. now left.
    + inversion Hx as [|? c Hc| | | | |]; subst. right.
      unfold isUnit in Hc. apply N.eqb_eq in Hc. now subst c.
  - intros (body & [->| ->] & Hlen & Hall).
    + change body with ([] ++ body)%list. constructor.
      * apply MAltL. constructor.
      * apply (atLeast_class phoneChar 10). now split.
    + change (N_of_ascii "+" :: body) with ([N_of_ascii "+"] ++ body)%list. constructor.
      * apply MAltR. constructor. unfold isUnit. apply N.eqb_refl.
      * apply (atLeast_class phoneChar 10). now split.
Qed.

Lemma phone_numbers_accepted_witness :
  isValidPhoneNumber (unitsOf "+44 20 7946 0958") = true.
Proof.
  apply (proj2 (phone_numbers_accepted (unitsOf "+44 20 7946 0958"))).
  exists (unitsOf "44 20 7946 0958"). split; [right; reflexivity|].
  split; [cbn; lia|]. repeat constructor.
Defined.

Example phone_examples :
  isValidPhoneNumber (unitsOf "+1 (555) 123-4567") = true /\
  isValidPhoneNumber (unitsOf "555-1234") = false /\
  isValidPhoneNumber (unitsOf "1 555 123 4567 ext 9") = false.
Proof. repeat split; vm_compute; reflexivity. Qed.

(** The language of the e-mail expression. *)
Lemma email_language email :
  isValidEmail email = true <->
  exists local domain last,
    email = (local ++ N_of_ascii "@" :: domain ++ N_of_ascii "." :: last)%list /\
    local <> [] /\ domain <> [] /\ last <> [] /\
    allIn emailChar local /\ allIn emailChar domain /\ allIn emailChar last.
Proof.
  unfold isValidEmail, emailRegex. rewrite test_spec. split.
  - intros H.
    inversion H as [| |? ? local rest1 Hl H1| | | |]; subst.
    inversion H1 as [| |? ? at1 rest2 Ha H2| | | |]; subst.
    inversion H2 as [| |? ? domain rest3 Hd H3| | | |]; subst.
    inversion H3 as [| |? ? dot last Hdot Hlast| | | |]; subst.
    apply plus_class in Hl as [Hl1 Hl2].
    apply plus_class in Hd as [Hd1 Hd2].
    apply plus_class in Hlast as [Hc1 Hc2].
    inversion Ha as [|? a Hat| | | | |]; subst.
    inversion Hdot as [|? d Hd| | | | |]; subst.
    unfold isUnit in Hat, Hd. apply N.eqb_eq in Hat, Hd. subst a d.
    exists local, domain, last. cbn [app]. repeat split; assumption.
  - intros (local & domain & last & -> & Hl & Hd & Hc & Al & Ad & Ac).
    constructor; [now apply plus_class|].
    change (N_of_ascii "@" :: domain ++ N_of_ascii "." :: last)%list
      with ([N_of_ascii "@"] ++ (domain ++ ([N_of_ascii "."] ++ last)))%list.
    constructor; [constructor; apply N.eqb_refl|].
    constructor; [now apply plus_class|].
    constructor; [constructor; apply N.eqb_refl | now apply plus_class].
Qed.

Lemma emailChar_facts c :
  emailChar c = true -> isSpace c = false /\ c <> N_of_ascii "@".
Proof.
  unfold emailChar, isUnit. intros H. apply negb_true_iff, orb_false_iff in H as [Hs Ha].
  split; [exact Hs|]. now apply N.eqb_neq.
Qed.

Lemma no_at_in_part part :
  allIn emailChar part -> count_occ N.eq_dec part (N_of_ascii "@") = 0%nat.
Proof.
  induction 1 as [|c part Hc _ IH]; [reflexivity|].
  apply emailChar_facts in Hc as [_ Hc].
  rewrite count_occ_cons_neq by exact Hc. exact IH.
Qed.

Lemma no_space_in_part part :
  allIn emailChar part -> Forall (fun c => isSpace c = false) part.
Proof.
  induction 1 as [|c part Hc _ IH]; constructor; [|exact IH].
  now apply emailChar_facts in Hc.
Qed.

(** An e-mail address is accepted exactly when it is a local part, [@], a
    domain part, a dot and a last part, the three parts not empty and free
    of white space and of [@]. So an accepted address has exactly one [@],
    no white space and at least five characters, and does not begin with
    [@]. *)
Theorem email_addresses_accepted email :
  (isValidEmail email = true <->
   exists local domain last,
     email = (local ++ N_of_ascii "@" :: domain ++ N_of_ascii "." :: last)%list /\
     local <> [] /\ domain <> [] /\ last <> [] /\
     allIn emailChar local /\ allIn emailChar domain /\ allIn emailChar last) /\
  (isValidEmail email = true ->
   count_occ N.eq_dec email (N_of_ascii "@") = 1%nat /\
   Forall (fun c => isSpace c = false) email /\
   (5 <= List.length email)%nat /\
   hd_error email <> Some (N_of_ascii "@")).
Proof.
  split; [apply email_language|].
  intros H. apply email_language in H
    as (local & domain & last & -> & Hl & Hd & Hc & Al & Ad & Ac).
  repeat split.
  - rewrite count_occ_app, (no_at_in_part _ Al). cbn [count_occ].
    destruct (N.eq_dec (N_of_ascii "@") (N_of_ascii "@")) as [_|Hne]; [|congruence].
    rewrite count_occ_app, (no_at_in_part _ Ad). cbn [count_occ].
    destruct (N.eq_dec (N_of_ascii ".") (N_of_ascii "@")) as [Heq|_]; [discriminate|].
    rewrite (no_at_in_part _ Ac). reflexivity.
  - apply Forall_app. split; [now apply no_space_in_part|].
    constructor; [reflexivity|].
    apply Forall_app. split; [now apply no_space_in_part|].
    constructor; [reflexivity | now apply no_space_in_part].
  - rewrite length_app. cbn [Datatypes.length]. rewrite length_app.
    cbn [Datatypes.length].
    destruct local; [congruence|]. destruct domain; [congruence|].
    destruct last; [congruence|]. cbn [Datatypes.length]. lia.
  - destruct local as [|c local]; [congruence|]. cbn. intros Heq.
    injection Heq as ->. inversion Al as [|? ? Hc0 _]; subst.
    apply emailChar_facts in Hc0 as [_ Hne]. apply Hne. reflexivity.
Qed.

Lemma email_addresses_accepted_witness :
  count_occ N.eq_dec (unitsOf "a.b@clinic.example.org") (N_of_ascii "@") = 1%nat.
Proof.
  exact (proj1 (proj2 (email_addresses_accepted (unitsOf "a.b@clinic.example.org"))
                  eq_refl)).
Defined.

Example email_examples :
  isValidEmail (unitsOf "jo@x.io") = true /\
  isValidEmail (unitsOf "jo@x") = false /\
  isValidEmail (unitsOf "jo smith@x.io") = false /\
  isValidEmail (unitsOf "jo@@x.io") = false /\
  isValidEmail (unitsOf "jo@x.") = false /\
  isValidEmail (unitsOf "jo@x.io.") = true.
Proof. repeat split; vm_compute; reflexivity. Qed.

End ValidatorFacts.
